(** * libauth: the BTL compilation driver ([src/lib/template/language/compile.ts])

    A shallow embedding of [describeExpectedInput], [compileScriptContents],
    [compileScriptRaw], [compileScriptP2shLocking],
    [compileScriptP2shUnlocking] and [compileScript], followed by the
    properties of the orchestration layer.

    Conventions of the embedding.
    - A JavaScript object with optional fields is a record of [option]s: an
      absent field is [None].
    - A JavaScript object used as a dictionary is the [gmap string _] of
      its own properties; the script table is read with [JS.read], which
      also sees the members inherited from [Object.prototype].
    - A JavaScript [number] that holds a locktime, a line or a column is an
      integer of [Z].
    - A JavaScript string is a [string] (of bytes; the arrow of the cycle
      message is its three UTF-8 bytes).
    - The parser, the resolver, the reducer and the compiler factory live in
      other modules of the library; the driver is parameterised by them. *)

From Stdlib Require Import ZArith String Ascii DecimalString.
From stdpp Require Import base option list strings gmap.

Local Open Scope Z_scope.

(** ** JavaScript primitives used by the driver *)

Module JS.

(** [Array.prototype.slice(start, end)]: a negative bound counts from the
    end of the array, and both bounds are clamped to [0 .. length]. *)
Definition slice {A} (start end_ : Z) (l : list A) : list A :=
  let len := Z.of_nat (length l) in
  let k := if start <? 0 then Z.max (len + start) 0 else Z.min start len in
  let final := if end_ <? 0 then Z.max (len + end_) 0 else Z.min end_ len in
  take (Z.to_nat (final - k)) (drop (Z.to_nat k) l).

(** [array[i]]: [undefined] outside of the array, never an exception. *)
Definition get {A} (l : list A) (i : Z) : option A :=
  if i <? 0 then None else l !! Z.to_nat i.

(** [Array.prototype.join(separator)] on an array of strings. *)
Fixpoint join (separator : string) (l : list string) : string :=
  match l with
  | [] => EmptyString
  | x :: rest =>
      match rest with
      | [] => x
      | _ :: _ => x +:+ separator +:+ join separator rest
      end
  end.

(** A template-literal hole [${v}] whose value may be [undefined]. *)
Definition interpolate (v : option string) : string :=
  match v with
  | Some s => s
  | None => "undefined"
  end.

(** A template-literal hole [${n}] for an integer [number]: its decimal
    digits, with a leading minus sign when negative (this is what
    [Number.prototype.toString] prints for every integer below 10^21 in
    magnitude). *)
Definition numberToString (n : Z) : string :=
  NilZero.string_of_int (Z.to_int n).

(** [String.prototype.startsWith] and [String.prototype.includes]. *)
Fixpoint startsWith (s searchString : string) {struct searchString} : bool :=
  match searchString, s with
  | EmptyString, _ => true
  | String _ _, EmptyString => false
  | String c searchString', String d s' =>
      if Ascii.eqb c d then startsWith s' searchString' else false
  end.

Fixpoint includes (s searchString : string) : bool :=
  startsWith s searchString
  || match s with
     | EmptyString => false
     | String _ s' => includes s' searchString
     end.

(** The members that an ordinary object inherits from [Object.prototype].
    None of them is [undefined] and none of them is a string. *)
Definition objectPrototypeProperties : list string :=
  [ "constructor"; "hasOwnProperty"; "isPrototypeOf"; "propertyIsEnumerable";
    "toLocaleString"; "toString"; "valueOf"; "__proto__";
    "__defineGetter__"; "__defineSetter__"; "__lookupGetter__";
    "__lookupSetter__" ].

(** The value of [object[key]] for an ordinary object whose own properties
    are [object]: the own property, else the inherited member, else
    [undefined]. *)
Inductive Property (V : Type) : Type :=
  | Own (value : V)
  | Inherited
  | Undefined.

Arguments Own {V} value.
Arguments Inherited {V}.
Arguments Undefined {V}.

Definition read {V} (object : gmap string V) (key : string) : Property V :=
  match object !! key with
  | Some value => Own value
  | None =>
      if bool_decide (key ∈ objectPrototypeProperties)
      then Inherited
      else Undefined
  end.

End JS.

(** [contains s part]: [part] occurs verbatim inside [s]. *)
Definition contains (s part : string) : Prop :=
  ∃ before after, s = before +:+ part +:+ after.

(** [endsWith s suffix]: [s] finishes with [suffix]. *)
Definition endsWith (s suffix : string) : Prop :=
  ∃ before, s = before +:+ suffix.

(** The double-quote character, which the messages of the driver embed. *)
Definition DQ : string := String (ascii_of_nat 34) EmptyString.

(** The separator of the ancestry chain in the cycle message: a space, the
    rightwards arrow U+2192 (bytes E2 86 92 in UTF-8) and a space. *)
Definition ARROW : string :=
  String " " (String (ascii_of_nat 226) (String (ascii_of_nat 134)
    (String (ascii_of_nat 146) (String " " EmptyString)))).

(** ** The messages of the environmental errors *)

(** compile.ts, line 133. *)
Definition missingScriptMessage (scriptId : string) : string :=
  "No script with an ID of " +:+ DQ +:+ scriptId +:+ DQ
  +:+ " was provided in the compilation environment.".

(** compile.ts, lines 146-148. *)
Definition circularDependencyMessage (scriptId : string)
    (sourceScriptIds : list string) : string :=
  "A circular dependency was encountered: script " +:+ DQ +:+ scriptId +:+ DQ
  +:+ " relies on itself to be generated. (Source scripts: "
  +:+ JS.join ARROW sourceScriptIds +:+ ")".

(** compile.ts, line 230. *)
Definition heightLocktimeMessage (scriptId : string) (locktime : Z) : string :=
  "The script " +:+ DQ +:+ scriptId +:+ DQ
  +:+ " requires a height-based locktime (less than 500,000,000), but this transaction uses a timestamp-based locktime ("
  +:+ DQ +:+ JS.numberToString locktime +:+ DQ +:+ ").".

(** compile.ts, line 245. *)
Definition timestampLocktimeMessage (scriptId : string) (locktime : Z)
  : string :=
  "The script " +:+ DQ +:+ scriptId +:+ DQ
  +:+ " requires a timestamp-based locktime (greater than or equal to 500,000,000), but this transaction uses a height-based locktime ("
  +:+ DQ +:+ JS.numberToString locktime +:+ DQ +:+ ").".

(** ** [describeExpectedInput] (compile.ts, lines 19-41) *)

(** The fixed opening of the sentence. *)
Definition SENTENCE : string :=
  "Encountered unexpected input while parsing script. Expected ".

Definition describeExpectedInput (expectedArray : list string) : string :=
  let EOF := "EOF" in
  let filtered := filter (λ value, value ≠ EOF) expectedArray in
  let newArray :=
    if negb (length filtered =? length expectedArray)%nat
    then filtered ++ ["the end of the script"]
    else filtered in
  let withoutLastElement :=
    JS.slice 0 (Z.of_nat (length newArray) - 1) newArray in
  let lastElement := JS.get newArray (Z.of_nat (length newArray) - 1) in
  let arrayRequiresCommas := 3%nat in
  let arrayRequiresOr := 2%nat in
  "Encountered unexpected input while parsing script. Expected "
  +:+ (if (arrayRequiresCommas <=? length newArray)%nat
       then JS.join ", " withoutLastElement
            +:+ (", or " +:+ JS.interpolate lastElement)
       else if (length newArray =? arrayRequiresOr)%nat
            then JS.join " or " newArray
            else JS.interpolate lastElement)
  +:+ ".".

(** The list that the formatter renders, in the words of its contract: when
    the end-of-input sentinel is present, it is removed and the phrase
    [the end of the script] is appended to what remains. *)
Definition expectedItems (expectedArray : list string) : list string :=
  if decide ("EOF" ∈ expectedArray)
  then filter (λ value, value ≠ "EOF") expectedArray ++ ["the end of the script"]
  else expectedArray.

(** ** Data model *)

(** [Uint8Array]. *)
Definition Bytecode : Type := list Byte.byte.

Module ErrorType.
Inductive t : Set := parse | resolve | reduce.
End ErrorType.

Module TimeLockType.
Inductive t : Set := height | timestamp.
End TimeLockType.

Module LockingScriptType.
Inductive t : Set := p2sh | standard.
End LockingScriptType.

Module Transformed.
Inductive t : Set := p2sh_locking | p2sh_unlocking.
End Transformed.

Module VariableType.
Inductive t : Set := AddressData | HdKey | Key | WalletData.
End VariableType.

Record Range : Set := {
  endColumn : Z;
  endLineNumber : Z;
  startColumn : Z;
  startLineNumber : Z;
}.

Record CompilationError : Set := {
  error : string;
  range : Range;
}.

(** The position reported by the parser on a failure. *)
Record Index : Set := {
  column : Z;
  line : Z;
}.

(** compile.ts, lines 104-109. *)
Definition emptyRange : Range :=
  {| endColumn := 0; endLineNumber := 0; startColumn := 0; startLineNumber := 0 |}.

(** The height/timestamp threshold (compile.ts, line 220). *)
Definition lockTimeTypeBecomesTimestamp : Z := 500000000.

Section Driver.

(** The artifacts of the three stages, the virtual machine, the program-state
    constructor and the resolver are opaque to the driver. *)
Context {ParseTree ResolvedScript ReductionTrace VM CreateState Resolver : Type}.

(** [CompilerOperationData extends { locktime: number }]; the field is read
    through optional chaining, so it may be absent at run time. The
    locktimes of the model are the integers: [NaN], the infinities and the
    fractions have no counterpart here. *)
Context {CompilerOperationData : Type}.
Variable locktime : CompilerOperationData → option Z.

(** The result of [parseScript], as compile.ts uses it:
    [{status: true, value}] or [{status: false, expected, index}]. *)
Inductive ParseResult : Type :=
  | ParseSuccess (value : ParseTree)
  | ParseFailure (expected : list string) (index : Index).

(** The result of [reduceScript], as compile.ts uses it: [reduction.errors]
    may be [undefined]; [reduction.bytecode] is copied at line 96 into a
    successful result, whose [bytecode] is a [Uint8Array]; the rest of the
    reduction trace is opaque. *)
Record ScriptReduction : Type := {
  reduction_bytecode : Bytecode;
  reduction_errors : option (list CompilationError);
  reduction_trace : ReductionTrace;
}.

(** [CompilationResult]: the object returned by every entry point. *)
Record CompilationResult : Type := {
  success : bool;
  bytecode : option Bytecode;
  errorType : option ErrorType.t;
  errors : option (list CompilationError);
  parse : option ParseTree;
  resolve : option ResolvedScript;
  reduce : option ScriptReduction;
  transformed : option Transformed.t;
}.

(** [CompilationData]: the fields the driver reads or writes. *)
Record CompilationData : Type := {
  dataBytecode : option (gmap string Bytecode);
  operationData : option CompilerOperationData;
}.

(** [CompilationEnvironment]: the fields the driver reads or writes. *)
Record CompilationEnvironment : Type := {
  scripts : gmap string string;
  sourceScriptIds : option (list string);
  lockingScriptTypes : option (gmap string LockingScriptType.t);
  unlockingScripts : option (gmap string string);
  unlockingScriptTimeLockTypes : option (gmap string TimeLockType.t);
  variables : option (gmap string VariableType.t);
  vm : option VM;
  createState : option CreateState;
}.

(** The object returned by [createCompilerCommonSynchronous]. *)
Record Compiler : Type := {
  generateBytecode : string → CompilationData → CompilationResult;
}.

(** What a call of [compileScriptRaw] or [compileScript] comes to. Either it
    returns a result, or it reads a member inherited from [Object.prototype]
    out of the script table and hands it, as the script, to
    [compileScriptContents] and so to [parseScript]: the member is not a
    string, what the parser does with it is outside of compile.ts, and the
    model stops there, naming the member. *)
Inductive Outcome : Type :=
  | Returns (result : CompilationResult)
  | ParsesInherited (property : string).

(** The collaborators imported by compile.ts (lines 1-10). *)
Variable parseScript : string → ParseResult.
Variable createIdentifierResolver :
  CompilationData → CompilationEnvironment → Resolver.
Variable resolveScriptSegment : ParseTree → Resolver → ResolvedScript.
Variable getResolutionErrors : ResolvedScript → list CompilationError.
Variable reduceScript :
  ResolvedScript → option VM → option CreateState → ScriptReduction.
Variable createCompilerCommonSynchronous : CompilationEnvironment → Compiler.

(** An error result without artifacts: [{errorType, errors, success: false}]. *)
Definition failure (kind : ErrorType.t) (errs : list CompilationError)
  : CompilationResult :=
  {| success := false; bytecode := None; errorType := Some kind;
     errors := Some errs; parse := None; resolve := None; reduce := None;
     transformed := None |}.

(** ** [compileScriptContents] (compile.ts, lines 47-102) *)

Definition compileScriptContents (data : CompilationData)
    (environment : CompilationEnvironment) (script : string)
  : CompilationResult :=
  match parseScript script with
  | ParseFailure expected index =>
      failure ErrorType.parse
        [ {| error := describeExpectedInput expected;
             range := {| endColumn := column index;
                         endLineNumber := line index;
                         startColumn := column index;
                         startLineNumber := line index |} |} ]
  | ParseSuccess value =>
      let resolver := createIdentifierResolver data environment in
      let resolvedScript := resolveScriptSegment value resolver in
      let resolutionErrors := getResolutionErrors resolvedScript in
      if negb (length resolutionErrors =? 0)%nat then
        {| success := false; bytecode := None;
           errorType := Some ErrorType.resolve;
           errors := Some resolutionErrors;
           parse := Some value; resolve := Some resolvedScript;
           reduce := None; transformed := None |}
      else
        let reduction :=
          reduceScript resolvedScript (vm environment)
            (createState environment) in
        match reduction_errors reduction with
        | None =>
            {| success := true;
               bytecode := Some (reduction_bytecode reduction);
               errorType := None; errors := None;
               parse := Some value; resolve := Some resolvedScript;
               reduce := Some reduction; transformed := None |}
        | Some reductionErrors =>
            {| success := false; bytecode := None;
               errorType := Some ErrorType.reduce;
               errors := Some reductionErrors;
               parse := Some value; resolve := Some resolvedScript;
               reduce := Some reduction; transformed := None |}
        end
  end.

(** [{ ...environment, sourceScriptIds }]. *)
Definition withSourceScriptIds (environment : CompilationEnvironment)
    (ids : list string) : CompilationEnvironment :=
  {| scripts := scripts environment;
     sourceScriptIds := Some ids;
     lockingScriptTypes := lockingScriptTypes environment;
     unlockingScripts := unlockingScripts environment;
     unlockingScriptTimeLockTypes := unlockingScriptTimeLockTypes environment;
     variables := variables environment;
     vm := vm environment;
     createState := createState environment |}.

(** ** [compileScriptRaw] (compile.ts, lines 115-165) *)

Definition compileScriptRaw (data : CompilationData)
    (environment : CompilationEnvironment) (scriptId : string) : Outcome :=
  (* lines 141-164, for a [script] that is not [undefined] *)
  let afterLookup (delegate : Outcome) : Outcome :=
    match sourceScriptIds environment with
    | Some ids =>
        if bool_decide (scriptId ∈ ids) then
          Returns
            (failure ErrorType.parse
               [ {| error := circularDependencyMessage scriptId ids;
                    range := emptyRange |} ])
        else delegate
    | None => delegate
    end in
  let sourceScriptIds' :=
    match sourceScriptIds environment with
    | None => [scriptId]
    | Some ids => ids ++ [scriptId]
    end in
  match JS.read (scripts environment) scriptId with
  | JS.Undefined =>
      Returns
        (failure ErrorType.parse
           [ {| error := missingScriptMessage scriptId; range := emptyRange |} ])
  | JS.Own script =>
      afterLookup
        (Returns
           (compileScriptContents data
              (withSourceScriptIds environment sourceScriptIds') script))
  | JS.Inherited => afterLookup (ParsesInherited scriptId)
  end.

(** ** [compileScriptP2shLocking] (compile.ts, lines 167-184) *)

Definition compileScriptP2shLocking (lockingBytecode : Bytecode)
    (vm : option VM) : CompilationResult :=
  let compiler :=
    createCompilerCommonSynchronous
      {| scripts :=
           {[ "p2shLocking" :=
                "OP_HASH160 <$(<lockingBytecode> OP_HASH160)> OP_EQUAL" ]};
         sourceScriptIds := None;
         lockingScriptTypes := None;
         unlockingScripts := None;
         unlockingScriptTimeLockTypes := None;
         variables := Some {[ "lockingBytecode" := VariableType.AddressData ]};
         vm := vm;
         createState := None |} in
  generateBytecode compiler "p2shLocking"
    {| dataBytecode := Some {[ "lockingBytecode" := lockingBytecode ]};
       operationData := None |}.

(** ** [compileScriptP2shUnlocking] (compile.ts, lines 186-205) *)

Definition compileScriptP2shUnlocking (lockingBytecode : Bytecode)
    (unlockingBytecode : Bytecode) : CompilationResult :=
  let compiler :=
    createCompilerCommonSynchronous
      {| scripts :=
           {[ "p2shUnlocking" := "unlockingBytecode <lockingBytecode>" ]};
         sourceScriptIds := None;
         lockingScriptTypes := None;
         unlockingScripts := None;
         unlockingScriptTimeLockTypes := None;
         variables :=
           Some (<[ "lockingBytecode" := VariableType.AddressData ]>
                   {[ "unlockingBytecode" := VariableType.AddressData ]});
         vm := None;
         createState := None |} in
  generateBytecode compiler "p2shUnlocking"
    {| dataBytecode :=
         Some (<[ "lockingBytecode" := lockingBytecode ]>
                 {[ "unlockingBytecode" := unlockingBytecode ]});
       operationData := None |}.

(** ** [compileScript] (compile.ts, lines 212-316) *)

(** [result.bytecode] read after the [success] check. The field is present
    on every successful result of [compileScriptRaw]
    ([compileScriptRaw_success_bytecode] below), so the fallback value is
    never the one read. *)
Definition bytecodeOf (result : CompilationResult) : Bytecode :=
  default [] (bytecode result).

(** [{ ...rawResult, bytecode, transformed }]. *)
Definition withTransformed (rawResult : CompilationResult)
    (newBytecode : option Bytecode) (marker : Transformed.t)
  : CompilationResult :=
  {| success := success rawResult;
     bytecode := newBytecode;
     errorType := errorType rawResult;
     errors := errors rawResult;
     parse := parse rawResult;
     resolve := resolve rawResult;
     reduce := reduce rawResult;
     transformed := Some marker |}.

(** [data.operationData?.locktime]. *)
Definition locktimeOf (data : CompilationData) : option Z :=
  operationData data ≫= locktime.

(** [environment.unlockingScriptTimeLockTypes?.[scriptId]]. *)
Definition timeLockTypeOf (environment : CompilationEnvironment)
    (scriptId : string) : option TimeLockType.t :=
  unlockingScriptTimeLockTypes environment ≫= (.!! scriptId).

(** [environment.lockingScriptTypes?.[scriptId]]. *)
Definition lockingScriptTypeOf (environment : CompilationEnvironment)
    (scriptId : string) : option LockingScriptType.t :=
  lockingScriptTypes environment ≫= (.!! scriptId).

(** [environment.unlockingScripts?.[scriptId]]. (The three classification
    maps are read through their own properties: an inherited member is
    neither [undefined] nor one of the strings that the driver compares
    with, and the model takes it that no script is classified under the
    string form of such a member.) *)
Definition unlocksOf (environment : CompilationEnvironment)
    (scriptId : string) : option string :=
  unlockingScripts environment ≫= (.!! scriptId).

(** Lines 220-252: the locktime-type check. [Some r] is the early return of
    the error [r]; [None] falls through to line 254. *)
Definition locktimeTypeCheck (scriptId : string) (data : CompilationData)
    (environment : CompilationEnvironment) : option CompilationResult :=
  match locktimeOf data with
  | Some value =>
      if match timeLockTypeOf environment scriptId with
         | Some TimeLockType.height => true
         | _ => false
         end && (lockTimeTypeBecomesTimestamp <=? value)
      then
        Some (failure ErrorType.parse
          [ {| error := heightLocktimeMessage scriptId value;
               range := emptyRange |} ])
      else if match timeLockTypeOf environment scriptId with
              | Some TimeLockType.timestamp => true
              | _ => false
              end && (value <? lockTimeTypeBecomesTimestamp)
      then
        Some (failure ErrorType.parse
          [ {| error := timestampLocktimeMessage scriptId value;
               range := emptyRange |} ])
      else None
  | None => None
  end.

(** Lines 275-286: the P2SH locking wrap of a successful raw result. *)
Definition wrapP2shLocking (rawResult : CompilationResult)
    (environment : CompilationEnvironment) : CompilationResult :=
  let transformedResult :=
    compileScriptP2shLocking (bytecodeOf rawResult) (vm environment) in
  if negb (success transformedResult) then transformedResult
  else
    withTransformed rawResult (bytecode transformedResult)
      Transformed.p2sh_locking.

(** Lines 290-312: the P2SH unlocking assembly of a successful raw result;
    [unlocks] is the identifier of the paired locking script. *)
Definition assembleP2shUnlocking (rawResult : CompilationResult)
    (data : CompilationData) (environment : CompilationEnvironment)
    (unlocks : string) : Outcome :=
  match compileScriptRaw data environment unlocks with
  | ParsesInherited property => ParsesInherited property
  | Returns lockingBytecodeResult =>
      if negb (success lockingBytecodeResult)
      then Returns lockingBytecodeResult
      else
        let transformedResult :=
          compileScriptP2shUnlocking (bytecodeOf lockingBytecodeResult)
            (bytecodeOf rawResult) in
        if negb (success transformedResult)
        then Returns lockingBytecodeResult
        else
          Returns
            (withTransformed rawResult (bytecode transformedResult)
               Transformed.p2sh_unlocking)
  end.

(** Lines 254-315: the raw compilation followed by the P2SH transforms. *)
Definition compileAndTransform (scriptId : string) (data : CompilationData)
    (environment : CompilationEnvironment) : Outcome :=
  match compileScriptRaw data environment scriptId with
  | ParsesInherited property => ParsesInherited property
  | Returns rawResult =>
      if negb (success rawResult) then Returns rawResult
      else
        let unlocks := unlocksOf environment scriptId in
        let unlockingScriptType :=
          match unlocks with
          | None => None
          | Some lockingId => lockingScriptTypeOf environment lockingId
          end in
        let isP2shUnlockingScript :=
          match unlockingScriptType with
          | Some LockingScriptType.p2sh => true
          | _ => false
          end in
        let lockingScriptType := lockingScriptTypeOf environment scriptId in
        let isP2shLockingScript :=
          match lockingScriptType with
          | Some LockingScriptType.p2sh => true
          | _ => false
          end in
        if isP2shLockingScript
        then Returns (wrapP2shLocking rawResult environment)
        else if isP2shUnlockingScript then
          match unlocks with
          | Some lockingId =>
              assembleP2shUnlocking rawResult data environment lockingId
          | None =>
              (* not reached: [isP2shUnlockingScript] requires [unlocks] *)
              Returns rawResult
          end
        else Returns rawResult
  end.

Definition compileScript (scriptId : string) (data : CompilationData)
    (environment : CompilationEnvironment) : Outcome :=
  match locktimeTypeCheck scriptId data environment with
  | Some mismatch => Returns mismatch
  | None => compileAndTransform scriptId data environment
  end.

(** The shape that the documentation of the driver states for a result: a
    failure carries no [bytecode] and a non-empty [errors] list; a success
    carries a [bytecode]. *)
Definition wellFormed (result : CompilationResult) : Prop :=
  (success result = false →
     bytecode result = None ∧ ∃ e rest, errors result = Some (e :: rest))
  ∧ (success result = true → ∃ b, bytecode result = Some b).

(** An environmental failure: kind [parse], one error, located at the empty
    range, and no artifact. *)
Definition environmentalFailure (message : string) : CompilationResult :=
  failure ErrorType.parse [ {| error := message; range := emptyRange |} ].

(** The shape that the driver itself gives to a result: a failure carries no
    [bytecode] and an [errors] list, which is non-empty unless it is the
    empty list that the reducer reported, passed on in a [reduce] failure; a
    success carries a [bytecode]. *)
Definition driverShaped (result : CompilationResult) : Prop :=
  (success result = false →
     bytecode result = None
     ∧ ∃ errs,
         errors result = Some errs
         ∧ (errs = [] →
              errorType result = Some ErrorType.reduce
              ∧ ∃ reduction,
                  reduce result = Some reduction
                  ∧ reduction_errors reduction = Some []))
  ∧ (success result = true → ∃ b, bytecode result = Some b).

End Driver.

(** * A concrete instance

    Small collaborators on which the driver can be run: a parse tree and a
    resolved script are the script text itself, and the bytecode of a script
    is the bytes of its text. *)

Module Example.

Definition locktime (operationData : option Z) : option Z := operationData.

(** The parser rejects the unterminated push [<]. *)
Definition parseScript (script : string) : @ParseResult string :=
  if decide (script = "<")
  then ParseFailure ["EOF"; "a closing angle bracket"] {| column := 2; line := 1 |}
  else ParseSuccess script.

Definition createIdentifierResolver
    (data : @CompilationData (option Z))
    (environment : @CompilationEnvironment unit unit) : unit := tt.

Definition resolveScriptSegment (value : string) (resolver : unit) : string :=
  value.

(** The resolver knows every identifier but [unknown_variable]. *)
Definition getResolutionErrors (resolvedScript : string)
  : list CompilationError :=
  if decide (resolvedScript = "unknown_variable")
  then [ {| error := "Unknown identifier.";
            range := {| endColumn := 17; endLineNumber := 1;
                        startColumn := 1; startLineNumber := 1 |} |} ]
  else [].

(** The reducer fails on the evaluation [$(OP_RETURN)]. *)
Definition reduceScript (resolvedScript : string) (machine : option unit)
    (constructor : option unit) : @ScriptReduction unit :=
  {| reduction_bytecode := list_byte_of_string resolvedScript;
     reduction_errors :=
       if decide (resolvedScript = "$(OP_RETURN)")
       then Some [ {| error := "Failed to reduce evaluation.";
                      range := {| endColumn := 13; endLineNumber := 1;
                                  startColumn := 1; startLineNumber := 1 |} |} ]
       else None;
     reduction_trace := tt |}.

(** A compiler factory: the compilation of a script named in [failing]
    reports a reduction error; any other script of the configuration
    compiles to the unlocking bytecode followed by the locking bytecode of
    the data, between the bytes [a9] and [87] for the script [p2shLocking]. *)
Definition compilerFactory (failing : list string)
    (configuration : @CompilationEnvironment unit unit)
  : @Compiler string string unit (option Z) :=
  {| generateBytecode scriptId data :=
       if decide (scriptId ∈ failing) then
         failure ErrorType.reduce
           [ {| error := "Failed to reduce the synthetic script.";
                range := emptyRange |} ]
       else
         match scripts configuration !! scriptId with
         | None => environmentalFailure "No such script."
         | Some _ =>
             let provided :=
               default [] (dataBytecode data ≫= (.!! "unlockingBytecode"))
               ++ default [] (dataBytecode data ≫= (.!! "lockingBytecode")) in
             {| success := true;
                bytecode :=
                  Some (if decide (scriptId = "p2shLocking")
                        then Byte.xa9 :: provided ++ [Byte.x87]
                        else provided);
                errorType := None; errors := None;
                parse := None; resolve := None; reduce := None;
                transformed := None |}
         end |}.

(** A reducer that reports a failure without naming an error: its [errors]
    list is present and empty. *)
Definition silentReduceScript (resolvedScript : string)
    (machine constructor : option unit) : @ScriptReduction unit :=
  {| reduction_bytecode := [];
     reduction_errors := Some [];
     reduction_trace := tt |}.

(** The driver over these collaborators. *)
Definition compileContents :=
  compileScriptContents parseScript createIdentifierResolver
    resolveScriptSegment getResolutionErrors reduceScript.

Definition compileRaw :=
  compileScriptRaw parseScript createIdentifierResolver
    resolveScriptSegment getResolutionErrors reduceScript.

Definition compile (failing : list string) :=
  compileScript locktime parseScript createIdentifierResolver
    resolveScriptSegment getResolutionErrors reduceScript
    (compilerFactory failing).

(** The driver over the same collaborators, with the silent reducer. *)
Definition compileContentsSilently :=
  compileScriptContents parseScript createIdentifierResolver
    resolveScriptSegment getResolutionErrors silentReduceScript.

Definition compileSilently :=
  compileScript locktime parseScript createIdentifierResolver
    resolveScriptSegment getResolutionErrors silentReduceScript
    (compilerFactory []).

(** A wallet template with a P2SH vault, its spending script (which requires
    a height-based locktime), two scripts [escrow] and [recovery] that are
    classified both as p2sh locking scripts and as unlocking scripts of the
    vault (the text of [recovery] does not parse), and two scripts [a] and
    [b] that refer to each other. *)
Definition environment : @CompilationEnvironment unit unit :=
  {| scripts :=
       <[ "vault" := "OP_DUP OP_HASH160 <owner> OP_EQUALVERIFY OP_CHECKSIG" ]>
       (<[ "spend" := "<signature> <public_key>" ]>
       (<[ "recovery" := "<" ]>
       (<[ "escrow" := "OP_2 <first> <second> OP_2 OP_CHECKMULTISIG" ]>
       (<[ "a" := "b" ]> {[ "b" := "a" ]}))));
     sourceScriptIds := None;
     lockingScriptTypes :=
       Some (<[ "vault" := LockingScriptType.p2sh ]>
            (<[ "escrow" := LockingScriptType.p2sh ]>
               {[ "recovery" := LockingScriptType.p2sh ]}));
     unlockingScripts :=
       Some (<[ "spend" := "vault" ]>
            (<[ "escrow" := "vault" ]> {[ "recovery" := "vault" ]}));
     unlockingScriptTimeLockTypes := Some {[ "spend" := TimeLockType.height ]};
     variables := None;
     vm := None;
     createState := None |}.

Definition noData : @CompilationData (option Z) :=
  {| dataBytecode := None; operationData := None |}.

Definition dataWithLocktime (value : Z) : @CompilationData (option Z) :=
  {| dataBytecode := None; operationData := Some (Some value) |}.

(** The environment of a call reached from [a] through [b]. *)
Definition cyclicEnvironment : @CompilationEnvironment unit unit :=
  withSourceScriptIds environment ["a"; "b"].

(** An environment whose ancestry chain names a script that the script
    source table does not have. *)
Definition danglingEnvironment : @CompilationEnvironment unit unit :=
  {| scripts := ∅;
     sourceScriptIds := Some ["a"; "b"];
     lockingScriptTypes := None;
     unlockingScripts := None;
     unlockingScriptTimeLockTypes := None;
     variables := None;
     vm := None;
     createState := None |}.

(** A template whose p2sh vault does not parse, with its spending script. *)
Definition brokenVaultEnvironment : @CompilationEnvironment unit unit :=
  {| scripts := <[ "vault" := "<" ]> {[ "spend" := "<signature>" ]};
     sourceScriptIds := None;
     lockingScriptTypes := Some {[ "vault" := LockingScriptType.p2sh ]};
     unlockingScripts := Some {[ "spend" := "vault" ]};
     unlockingScriptTimeLockTypes := None;
     variables := None;
     vm := None;
     createState := None |}.

End Example.

(** * Properties *)

(** ** Facts on strings and arrays *)

Lemma append_cons (c : ascii) (a b : string) :
  String c a +:+ b = String c (a +:+ b).
Proof. reflexivity. Qed.

Lemma append_nil_l (a : string) : EmptyString +:+ a = a.
Proof. reflexivity. Qed.

Lemma append_assoc (a b c : string) : (a +:+ b) +:+ c = a +:+ (b +:+ c).
Proof.
  induction a as [|ch a IH]; [reflexivity|].
  rewrite !append_cons. now rewrite IH.
Qed.

Lemma startsWith_spec (s searchString : string) :
  JS.startsWith s searchString = true ↔ ∃ after, s = searchString +:+ after.
Proof.
  revert s. induction searchString as [|c p IH]; intros s.
  - simpl. split; [intros _; now exists s | reflexivity].
  - destruct s as [|d s]; simpl.
    + split; [discriminate | intros [after H]; discriminate].
    + destruct (Ascii.eqb_spec c d) as [->|Hne].
      * rewrite IH. split; intros [after H]; exists after.
        -- now rewrite append_cons, H.
        -- rewrite append_cons in H. now injection H.
      * split; [discriminate|].
        intros [after H]. rewrite append_cons in H. injection H. congruence.
Qed.

Lemma includes_spec (s searchString : string) :
  JS.includes s searchString = true ↔ contains s searchString.
Proof.
  unfold contains. induction s as [|d s IH].
  - cbn [JS.includes]. rewrite orb_false_r, startsWith_spec. split.
    + intros [after H]. now exists EmptyString, after.
    + intros [[|b before] [after H]]; [now exists after | discriminate].
  - cbn [JS.includes]. rewrite orb_true_iff, startsWith_spec, IH. split.
    + intros [[after H] | (before & after & H)].
      * now exists EmptyString, after.
      * exists (String d before), after. now rewrite append_cons, H.
    + intros [[|b before] [after H]].
      * left. now exists after.
      * right. exists before, after. rewrite append_cons in H. now injection H.
Qed.

Lemma not_contains (s part : string) :
  JS.includes s part = false → ¬ contains s part.
Proof. intros H Hc. apply includes_spec in Hc. congruence. Qed.

Lemma contains_intro (before part after : string) :
  contains (before +:+ part +:+ after) part.
Proof. now exists before, after. Qed.

Lemma endsWith_append (a b suffix : string) :
  endsWith b suffix → endsWith (a +:+ b) suffix.
Proof.
  intros [before ->]. exists (a +:+ before). symmetry. apply append_assoc.
Qed.

Lemma filter_length_id {A} (P : A → Prop) `{∀ x, Decision (P x)} (l : list A) :
  length (filter P l) = length l → filter P l = l.
Proof.
  induction l as [|x l IH]; [reflexivity|].
  rewrite filter_cons. destruct (decide (P x)) as [Hx|Hx]; simpl; intros Hlen.
  - f_equal. apply IH. lia.
  - pose proof (length_filter P l). lia.
Qed.

Lemma slice_init {A} (init : list A) (x : A) :
  JS.slice 0 (Z.of_nat (length (init ++ [x])) - 1) (init ++ [x]) = init.
Proof.
  unfold JS.slice. rewrite length_app. simpl length.
  replace (Z.of_nat (length init + 1) - 1) with (Z.of_nat (length init)) by lia.
  destruct (Z.ltb_spec (Z.of_nat (length init)) 0) as [Hneg|_]; [lia|].
  simpl (0 <? 0). cbn iota.
  rewrite (Z.min_l 0) by lia. rewrite Z.min_l by lia.
  rewrite Z.sub_0_r, Nat2Z.id. change (Z.to_nat 0) with 0%nat.
  rewrite drop_0. apply take_app_length.
Qed.

Lemma get_last {A} (init : list A) (x : A) :
  JS.get (init ++ [x]) (Z.of_nat (length (init ++ [x])) - 1) = Some x.
Proof.
  unfold JS.get. rewrite length_app. simpl length.
  replace (Z.of_nat (length init + 1) - 1) with (Z.of_nat (length init)) by lia.
  destruct (Z.ltb_spec (Z.of_nat (length init)) 0) as [Hneg|_]; [lia|].
  rewrite Nat2Z.id. now rewrite list_lookup_middle.
Qed.

(** ** The diagnostics formatter *)

Lemma newArray_expectedItems (expectedArray : list string) :
  (if negb (length (filter (λ value, value ≠ "EOF") expectedArray)
            =? length expectedArray)%nat
   then filter (λ value, value ≠ "EOF") expectedArray ++ ["the end of the script"]
   else filter (λ value, value ≠ "EOF") expectedArray)
  = expectedItems expectedArray.
Proof.
  unfold expectedItems.
  destruct (Nat.eqb_spec (length (filter (λ value, value ≠ "EOF") expectedArray))
              (length expectedArray)) as [Heq|Hne]; simpl.
  - destruct (decide ("EOF" ∈ expectedArray)) as [Hin|Hout].
    + assert (length (filter (λ value, value ≠ "EOF") expectedArray)
              < length expectedArray)%nat as Hlt.
      { apply (length_filter_lt _ _ "EOF"); [exact Hin | intros Hne; now apply Hne]. }
      lia.
    + now apply filter_length_id.
  - destruct (decide ("EOF" ∈ expectedArray)) as [Hin|Hout]; [reflexivity|].
    exfalso. apply Hne. f_equal.
    clear Hne. induction expectedArray as [|x l IH]; [reflexivity|].
    rewrite filter_cons_True.
    + f_equal. apply IH. intros Hl. apply Hout. now right.
    + intros ->. apply Hout. now left.
Qed.

Lemma describeExpectedInput_items (expectedArray : list string) :
  describeExpectedInput expectedArray
  = let newArray := expectedItems expectedArray in
    SENTENCE
    +:+ (if (3 <=? length newArray)%nat
         then JS.join ", " (JS.slice 0 (Z.of_nat (length newArray) - 1) newArray)
              +:+ (", or "
                   +:+ JS.interpolate
                         (JS.get newArray (Z.of_nat (length newArray) - 1)))
         else if (length newArray =? 2)%nat
              then JS.join " or " newArray
              else JS.interpolate
                     (JS.get newArray (Z.of_nat (length newArray) - 1)))
    +:+ ".".
Proof.
  unfold describeExpectedInput. cbv zeta.
  now rewrite newArray_expectedItems.
Qed.

Lemma describeExpectedInput_period (expectedArray : list string) :
  endsWith (describeExpectedInput expectedArray) ".".
Proof.
  unfold describeExpectedInput. cbv zeta.
  apply endsWith_append. eexists. reflexivity.
Qed.

(** C7. For every list of expected inputs: when the end-of-input sentinel is
    present it is removed and [the end of the script] is appended
    ([expectedItems]); one item is rendered alone, two items are joined with
    [ or ], and for three or more items all but the last are comma-joined
    and [, or <last>] is appended; the output is the sentence
    [Encountered unexpected input while parsing script. Expected <list>.],
    which always ends in a period. *)
Theorem describeExpectedInput_format (expectedArray : list string) :
  (∀ x, expectedItems expectedArray = [x] →
     describeExpectedInput expectedArray = SENTENCE +:+ x +:+ ".")
  ∧ (∀ x y, expectedItems expectedArray = [x; y] →
       describeExpectedInput expectedArray
       = SENTENCE +:+ x +:+ " or " +:+ y +:+ ".")
  ∧ (∀ init lastItem,
       expectedItems expectedArray = init ++ [lastItem] →
       (2 ≤ length init)%nat →
       describeExpectedInput expectedArray
       = SENTENCE +:+ JS.join ", " init +:+ ", or " +:+ lastItem +:+ ".")
  ∧ endsWith (describeExpectedInput expectedArray) ".".
Proof.
  repeat split.
  - intros x Hx. rewrite describeExpectedInput_items, Hx. reflexivity.
  - intros x y Hxy. rewrite describeExpectedInput_items, Hxy. cbv zeta.
    simpl. now rewrite append_assoc.
  - intros init lastItem Hitems Hlen.
    rewrite describeExpectedInput_items, Hitems. cbv zeta.
    rewrite slice_init, get_last.
    assert ((3 <=? length (init ++ [lastItem]))%nat = true) as ->.
    { apply Nat.leb_le. rewrite length_app. simpl. lia. }
    simpl. now rewrite !append_assoc.
  - apply describeExpectedInput_period.
Qed.

(** C8. The formatter is a total function of its input list: reading the
    last element of an empty array yields [undefined] instead of an index
    error, the empty list gives the sentence with [undefined] as its list,
    and for every input list the sentence ends in a period. *)
Theorem describeExpectedInput_total :
  (∀ expectedArray, ∃ sentence,
     describeExpectedInput expectedArray = sentence ∧ endsWith sentence ".")
  ∧ JS.get (@nil string) (Z.of_nat (length (@nil string)) - 1) = None
  ∧ describeExpectedInput []
    = "Encountered unexpected input while parsing script. Expected undefined.".
Proof.
  split; [|split; reflexivity].
  intros expectedArray. eexists. split; [reflexivity|].
  apply describeExpectedInput_period.
Qed.

(** ** The messages name what they are about *)

Lemma missingScriptMessage_contains (scriptId : string) :
  contains (missingScriptMessage scriptId) scriptId.
Proof.
  exists ("No script with an ID of " +:+ DQ),
         (DQ +:+ " was provided in the compilation environment.").
  reflexivity.
Qed.

Lemma circularDependencyMessage_contains (scriptId : string)
    (ids : list string) :
  contains (circularDependencyMessage scriptId ids) (JS.join ARROW ids).
Proof.
  exists ("A circular dependency was encountered: script " +:+ DQ +:+ scriptId
          +:+ DQ +:+ " relies on itself to be generated. (Source scripts: "),
         ")".
  unfold circularDependencyMessage. now rewrite !append_assoc.
Qed.

Lemma heightLocktimeMessage_contains (scriptId : string) (value : Z) :
  contains (heightLocktimeMessage scriptId value) scriptId.
Proof. exists ("The script " +:+ DQ). eexists. reflexivity. Qed.

Lemma heightLocktimeMessage_contains_value (scriptId : string) (value : Z) :
  contains (heightLocktimeMessage scriptId value) (JS.numberToString value).
Proof.
  eexists. exists (DQ +:+ ").").
  unfold heightLocktimeMessage. rewrite <- !append_assoc. reflexivity.
Qed.

Lemma timestampLocktimeMessage_contains (scriptId : string) (value : Z) :
  contains (timestampLocktimeMessage scriptId value) scriptId.
Proof. exists ("The script " +:+ DQ). eexists. reflexivity. Qed.

Lemma timestampLocktimeMessage_contains_value (scriptId : string) (value : Z) :
  contains (timestampLocktimeMessage scriptId value) (JS.numberToString value).
Proof.
  eexists. exists (DQ +:+ ").").
  unfold timestampLocktimeMessage. rewrite <- !append_assoc. reflexivity.
Qed.

(** ** More on the diagnostics formatter *)

Lemma contains_append_r (a b part : string) :
  contains b part → contains (a +:+ b) part.
Proof.
  intros (before & after & ->). exists (a +:+ before), after.
  symmetry. apply append_assoc.
Qed.

Lemma contains_append_l (a b part : string) :
  contains a part → contains (a +:+ b) part.
Proof.
  intros (before & after & ->). exists before, (after +:+ b).
  now rewrite !append_assoc.
Qed.

Lemma append_nil_r (a : string) : a +:+ EmptyString = a.
Proof.
  induction a as [|ch a IH]; [reflexivity|]. now rewrite append_cons, IH.
Qed.

Lemma contains_self (part : string) : contains part part.
Proof. exists EmptyString, EmptyString. now rewrite append_nil_l, append_nil_r. Qed.

Lemma contains_join (separator : string) (l : list string) (x : string) :
  x ∈ l → contains (JS.join separator l) x.
Proof.
  induction l as [|y l IH]; [intros H; inversion H|].
  intros H. apply elem_of_cons in H as [-> | H].
  - destruct l as [|z l]; [apply contains_self|].
    cbn [JS.join]. apply contains_append_l, contains_self.
  - destruct l as [|z l]; [inversion H|].
    cbn [JS.join]. apply contains_append_r, contains_append_r. now apply IH.
Qed.

Lemma filter_not_elem_id (l : list string) :
  "EOF" ∉ l → filter (λ value, value ≠ "EOF") l = l.
Proof.
  induction l as [|x l IH]; [reflexivity|]. intros Hout.
  rewrite filter_cons_True.
  - f_equal. apply IH. intros H. apply Hout. now right.
  - intros ->. apply Hout. now left.
Qed.

Lemma expectedItems_filter (expectedArray : list string) :
  expectedItems expectedArray
  = filter (λ value, value ≠ "EOF") expectedArray
    ++ (if decide ("EOF" ∈ expectedArray)
        then ["the end of the script"] else []).
Proof.
  unfold expectedItems. destruct (decide ("EOF" ∈ expectedArray)); [reflexivity|].
  now rewrite app_nil_r, filter_not_elem_id.
Qed.

(** The part of the sentence that precedes the last item. *)
Lemma describeExpectedInput_last (expectedArray init : list string)
    (lastItem : string) :
  expectedItems expectedArray = init ++ [lastItem] →
  describeExpectedInput expectedArray
  = SENTENCE
    +:+ match init with
        | [] => EmptyString
        | [x] => x +:+ " or "
        | _ => JS.join ", " init +:+ ", or "
        end
    +:+ lastItem +:+ ".".
Proof.
  intros Hitems. rewrite describeExpectedInput_items, Hitems. cbv zeta.
  rewrite slice_init, get_last.
  destruct init as [|x [|y init]]; [reflexivity | | ].
  - simpl. now rewrite !append_assoc.
  - assert ((3 <=? length ((x :: y :: init) ++ [lastItem]))%nat = true) as ->.
    { apply Nat.leb_le. rewrite length_app. simpl. lia. }
    cbn [JS.interpolate]. now rewrite !append_assoc.
Qed.

(** X1. The output of the formatter depends only on the expected inputs
    other than the sentinel, in their order, and on whether the sentinel is
    present: where the sentinel stands in the list, and how many times, makes
    no difference. *)
Theorem describeExpectedInput_sentinel_position (l1 l2 : list string)
    (Hsame : filter (λ value, value ≠ "EOF") l1
             = filter (λ value, value ≠ "EOF") l2)
    (Hsentinel : "EOF" ∈ l1 ↔ "EOF" ∈ l2) :
  describeExpectedInput l1 = describeExpectedInput l2.
Proof.
  rewrite !describeExpectedInput_items.
  assert (expectedItems l1 = expectedItems l2) as ->; [|reflexivity].
  rewrite !expectedItems_filter, Hsame.
  destruct (decide ("EOF" ∈ l1)) as [H1|H1], (decide ("EOF" ∈ l2)) as [H2|H2];
    tauto.
Qed.

(** X2. Whenever the sentinel is among the expected inputs, the sentence
    finishes with [the end of the script.], wherever the sentinel stood. *)
Theorem describeExpectedInput_sentinel_last (expectedArray : list string)
    (Hsentinel : "EOF" ∈ expectedArray) :
  endsWith (describeExpectedInput expectedArray) "the end of the script.".
Proof.
  rewrite (describeExpectedInput_last expectedArray
             (filter (λ value, value ≠ "EOF") expectedArray)
             "the end of the script").
  - apply endsWith_append, endsWith_append. eexists EmptyString. reflexivity.
  - rewrite expectedItems_filter. now destruct (decide ("EOF" ∈ expectedArray)).
Qed.

(** X3. Every expected input other than the sentinel is mentioned in the
    sentence. *)
Theorem describeExpectedInput_mentions (expectedArray : list string)
    (x : string) (Hin : x ∈ expectedArray) (Hx : x ≠ "EOF") :
  contains (describeExpectedInput expectedArray) x.
Proof.
  assert (x ∈ expectedItems expectedArray) as Hitem.
  { rewrite expectedItems_filter. apply elem_of_app. left.
    now apply list_elem_of_filter. }
  destruct (exists_last (l := expectedItems expectedArray))
    as (others & lastItem & Hitems).
  { intros Hnil. rewrite Hnil in Hitem. inversion Hitem. }
  rewrite (describeExpectedInput_last expectedArray others lastItem Hitems).
  rewrite Hitems in Hitem.
  apply contains_append_r.
  apply elem_of_app in Hitem as [Hitem | Hitem].
  - apply contains_append_l.
    destruct others as [|y [|z others]]; [inversion Hitem | |].
    + apply elem_of_cons in Hitem as [-> | Hitem]; [|inversion Hitem].
      apply contains_append_l, contains_self.
    + apply contains_append_l. now apply contains_join.
  - apply elem_of_cons in Hitem as [-> | Hitem]; [|inversion Hitem].
    apply contains_append_r, contains_append_l, contains_self.
Qed.

(** ** The driver over arbitrary collaborators *)

Section DriverProperties.

Context {ParseTree ResolvedScript ReductionTrace VM CreateState Resolver : Type}.
Context {CompilerOperationData : Type}.

Local Abbreviation ParseResult := (@ParseResult ParseTree).
Local Abbreviation ScriptReduction := (@ScriptReduction ReductionTrace).
Local Abbreviation CompilationResult :=
  (@CompilationResult ParseTree ResolvedScript ReductionTrace).
Local Abbreviation CompilationData := (@CompilationData CompilerOperationData).
Local Abbreviation CompilationEnvironment :=
  (@CompilationEnvironment VM CreateState).
Local Abbreviation Compiler :=
  (@Compiler ParseTree ResolvedScript ReductionTrace CompilerOperationData).

Variable locktime : CompilerOperationData → option Z.
Variable parseScript : string → ParseResult.
Variable createIdentifierResolver :
  CompilationData → CompilationEnvironment → Resolver.
Variable resolveScriptSegment : ParseTree → Resolver → ResolvedScript.
Variable getResolutionErrors : ResolvedScript → list CompilationError.
Variable reduceScript :
  ResolvedScript → option VM → option CreateState → ScriptReduction.
Variable createCompilerCommonSynchronous : CompilationEnvironment → Compiler.

Local Abbreviation failure :=
  (@failure ParseTree ResolvedScript ReductionTrace).
Local Abbreviation environmentalFailure :=
  (@environmentalFailure ParseTree ResolvedScript ReductionTrace).
Local Abbreviation wellFormed :=
  (@wellFormed ParseTree ResolvedScript ReductionTrace).
Local Abbreviation driverShaped :=
  (@driverShaped ParseTree ResolvedScript ReductionTrace).
Local Abbreviation Outcome :=
  (@Outcome ParseTree ResolvedScript ReductionTrace).
Local Abbreviation Returns :=
  (@Returns ParseTree ResolvedScript ReductionTrace).
Local Abbreviation ParsesInherited :=
  (@ParsesInherited ParseTree ResolvedScript ReductionTrace).
Local Abbreviation compileScriptContents :=
  (compileScriptContents parseScript createIdentifierResolver
     resolveScriptSegment getResolutionErrors reduceScript).
Local Abbreviation compileScriptRaw :=
  (compileScriptRaw parseScript createIdentifierResolver
     resolveScriptSegment getResolutionErrors reduceScript).
Local Abbreviation compileScriptP2shLockingWith :=
  (@compileScriptP2shLocking ParseTree ResolvedScript ReductionTrace VM
     CreateState CompilerOperationData).
Local Abbreviation compileScriptWith :=
  (compileScript locktime parseScript createIdentifierResolver
     resolveScriptSegment getResolutionErrors reduceScript).
Local Abbreviation compileScriptP2shLocking :=
  (compileScriptP2shLocking createCompilerCommonSynchronous).
Local Abbreviation compileScriptP2shUnlocking :=
  (compileScriptP2shUnlocking createCompilerCommonSynchronous).
Local Abbreviation locktimeOf := (locktimeOf locktime).
Local Abbreviation locktimeTypeCheck :=
  (@locktimeTypeCheck ParseTree ResolvedScript ReductionTrace VM CreateState
     CompilerOperationData locktime).
Local Abbreviation wrapP2shLocking :=
  (wrapP2shLocking createCompilerCommonSynchronous).
Local Abbreviation assembleP2shUnlocking :=
  (assembleP2shUnlocking parseScript createIdentifierResolver
     resolveScriptSegment getResolutionErrors reduceScript
     createCompilerCommonSynchronous).
Local Abbreviation compileAndTransform :=
  (compileAndTransform parseScript createIdentifierResolver
     resolveScriptSegment getResolutionErrors reduceScript
     createCompilerCommonSynchronous).
Local Abbreviation compileScript :=
  (compileScript locktime parseScript createIdentifierResolver
     resolveScriptSegment getResolutionErrors reduceScript
     createCompilerCommonSynchronous).

(** *** The stage pipeline *)

(** C6. Once parsing has succeeded: resolution errors give a [resolve]
    failure that carries all of them with the parse and resolve artifacts and
    no reduce artifact; without resolution errors, reduction errors give a
    [reduce] failure that carries them with the three artifacts and no
    bytecode; and a reduction without errors gives a success with the
    bytecode and the three artifacts. *)
Theorem compileScriptContents_stages (data : CompilationData)
    (environment : CompilationEnvironment) (script : string)
    (value : ParseTree)
    (Hparse : parseScript script = ParseSuccess value) :
  let resolvedScript :=
    resolveScriptSegment value (createIdentifierResolver data environment) in
  let reduction :=
    reduceScript resolvedScript (vm environment) (createState environment) in
  (getResolutionErrors resolvedScript ≠ [] →
     compileScriptContents data environment script
     = {| success := false; bytecode := None;
          errorType := Some ErrorType.resolve;
          errors := Some (getResolutionErrors resolvedScript);
          parse := Some value; resolve := Some resolvedScript;
          reduce := None; transformed := None |})
  ∧ (getResolutionErrors resolvedScript = [] →
     ∀ reductionErrors, reduction_errors reduction = Some reductionErrors →
     compileScriptContents data environment script
     = {| success := false; bytecode := None;
          errorType := Some ErrorType.reduce;
          errors := Some reductionErrors;
          parse := Some value; resolve := Some resolvedScript;
          reduce := Some reduction; transformed := None |})
  ∧ (getResolutionErrors resolvedScript = [] →
     reduction_errors reduction = None →
     compileScriptContents data environment script
     = {| success := true;
          bytecode := Some (reduction_bytecode reduction);
          errorType := None; errors := None;
          parse := Some value; resolve := Some resolvedScript;
          reduce := Some reduction; transformed := None |}).
Proof.
  intros resolvedScript reduction. unfold compileScriptContents.
  rewrite Hparse. cbv zeta. fold resolvedScript. fold reduction.
  repeat split.
  - intros Herrors. destruct (getResolutionErrors resolvedScript); [done|].
    reflexivity.
  - intros -> reductionErrors ->. reflexivity.
  - intros -> ->. reflexivity.
Qed.

(** *** The dependency resolver *)

Lemma read_own {V} (object : gmap string V) (key : string) (value : V) :
  object !! key = Some value → JS.read object key = JS.Own value.
Proof. intros H. unfold JS.read. now rewrite H. Qed.

Lemma read_undefined {V} (object : gmap string V) (key : string) :
  object !! key = None → key ∉ JS.objectPrototypeProperties →
  JS.read object key = JS.Undefined.
Proof.
  intros H Hkey. unfold JS.read. rewrite H.
  now rewrite bool_decide_eq_false_2.
Qed.

Lemma read_inherited {V} (object : gmap string V) (key : string) :
  object !! key = None → key ∈ JS.objectPrototypeProperties →
  JS.read object key = JS.Inherited.
Proof.
  intros H Hkey. unfold JS.read. rewrite H.
  now rewrite bool_decide_eq_true_2.
Qed.

Lemma compileScriptRaw_missing (data : CompilationData)
    (environment : CompilationEnvironment) (scriptId : string) :
  scripts environment !! scriptId = None →
  scriptId ∉ JS.objectPrototypeProperties →
  compileScriptRaw data environment scriptId
  = Returns (environmentalFailure (missingScriptMessage scriptId)).
Proof.
  intros H Hkey. unfold compileScriptRaw. cbv zeta.
  now rewrite read_undefined.
Qed.

Lemma compileScriptRaw_own (data : CompilationData)
    (environment : CompilationEnvironment) (scriptId script : string) :
  scripts environment !! scriptId = Some script →
  compileScriptRaw data environment scriptId
  = match sourceScriptIds environment with
    | Some ids =>
        if bool_decide (scriptId ∈ ids)
        then Returns
               (environmentalFailure (circularDependencyMessage scriptId ids))
        else Returns
               (compileScriptContents data
                  (withSourceScriptIds environment (ids ++ [scriptId]))
                  script)
    | None =>
        Returns
          (compileScriptContents data
             (withSourceScriptIds environment [scriptId]) script)
    end.
Proof.
  intros H. unfold compileScriptRaw. cbv zeta.
  rewrite (read_own _ _ _ H). now destruct (sourceScriptIds environment).
Qed.

Lemma compileScriptRaw_returns_inv (data : CompilationData)
    (environment : CompilationEnvironment) (scriptId : string)
    (result : CompilationResult) :
  compileScriptRaw data environment scriptId = Returns result →
  (∃ message, result = environmentalFailure message)
  ∨ ∃ script,
      scripts environment !! scriptId = Some script
      ∧ (∀ ids, sourceScriptIds environment = Some ids → scriptId ∉ ids)
      ∧ result
        = compileScriptContents data
            (withSourceScriptIds environment
               (match sourceScriptIds environment with
                | None => [scriptId]
                | Some ids => ids ++ [scriptId]
                end)) script.
Proof.
  unfold compileScriptRaw, JS.read. cbv zeta.
  destruct (scripts environment !! scriptId) as [script|] eqn:Hscript.
  - destruct (sourceScriptIds environment) as [ids|].
    + destruct (bool_decide (scriptId ∈ ids)) eqn:Hin.
      * intros [= <-]. left. now eexists.
      * intros [= <-]. right. exists script.
        apply bool_decide_eq_false in Hin.
        split; [reflexivity|]. split; [|reflexivity].
        intros ids' [= <-]. exact Hin.
    + intros [= <-]. right. exists script.
      split; [reflexivity|]. split; [|reflexivity].
      intros ids' Hids. discriminate.
  - destruct (bool_decide (scriptId ∈ JS.objectPrototypeProperties)).
    + destruct (sourceScriptIds environment) as [ids|];
        [destruct (bool_decide (scriptId ∈ ids))|]; try discriminate.
      intros [= <-]. left. now eexists.
    + intros [= <-]. left. now eexists.
Qed.

Lemma locktimeTypeCheck_mismatch (scriptId : string) (data : CompilationData)
    (environment : CompilationEnvironment) (mismatch : CompilationResult) :
  locktimeTypeCheck scriptId data environment = Some mismatch →
  ∃ value,
    locktimeOf data = Some value
    ∧ (mismatch = environmentalFailure (heightLocktimeMessage scriptId value)
       ∨ mismatch
         = environmentalFailure (timestampLocktimeMessage scriptId value)).
Proof.
  unfold locktimeTypeCheck. intros H.
  destruct (locktimeOf data) as [value|]; [|discriminate].
  exists value. split; [reflexivity|].
  repeat match type of H with
  | (if ?c then _ else _) = _ => destruct c
  end; [left | right | discriminate]; now injection H as <-.
Qed.

(** X17. The failure for an unknown identifier: for an identifier that has
    no entry in the script source table and is not the name of a member that
    the table inherits from [Object.prototype], [compileScriptRaw] returns
    the [parse] failure with a single error at the empty range and a message
    that quotes the identifier; [compileScript] returns a [parse] failure
    with a single error at the empty range whose message contains the
    identifier. *)
Theorem compileScriptRaw_unknown_id (data : CompilationData)
    (environment : CompilationEnvironment) (scriptId : string)
    (Hmissing : scripts environment !! scriptId = None)
    (Hname : scriptId ∉ JS.objectPrototypeProperties) :
  compileScriptRaw data environment scriptId
  = Returns
      {| success := false; bytecode := None;
         errorType := Some ErrorType.parse;
         errors := Some [ {| error := missingScriptMessage scriptId;
                             range := emptyRange |} ];
         parse := None; resolve := None; reduce := None;
         transformed := None |}
  ∧ contains (missingScriptMessage scriptId) scriptId
  ∧ ∃ message,
      compileScript scriptId data environment
      = Returns
          {| success := false; bytecode := None;
             errorType := Some ErrorType.parse;
             errors := Some [ {| error := message; range := emptyRange |} ];
             parse := None; resolve := None; reduce := None;
             transformed := None |}
      ∧ contains message scriptId.
Proof.
  split; [|split].
  - now rewrite compileScriptRaw_missing.
  - apply missingScriptMessage_contains.
  - unfold compileScript.
    destruct (locktimeTypeCheck scriptId data environment) as [mismatch|] eqn:Hcheck.
    + apply locktimeTypeCheck_mismatch in Hcheck as (value & _ & [-> | ->]);
        eexists; (split; [reflexivity|]).
      * apply heightLocktimeMessage_contains.
      * apply timestampLocktimeMessage_contains.
    + unfold compileAndTransform.
      rewrite compileScriptRaw_missing by assumption. simpl.
      eexists. split; [reflexivity|]. apply missingScriptMessage_contains.
Qed.

(** C3 (amended). A call of [compileScriptRaw] whose identifier already
    appears in the ancestry chain fails with kind [parse] and a single error
    at the empty range; when the identifier has an entry in the script source
    table, the message is the one of the circular dependency, which contains
    the whole chain, arrow-joined in call order. A call that passes both
    checks delegates to the stage pipeline with the chain extended by the
    identifier ([[scriptId]] when there was none). *)
Theorem compileScriptRaw_circular (data : CompilationData)
    (environment : CompilationEnvironment) (scriptId : string)
    (ids : list string)
    (Hchain : sourceScriptIds environment = Some ids)
    (Hin : scriptId ∈ ids) :
  (∃ message,
     compileScriptRaw data environment scriptId
     = Returns
         {| success := false; bytecode := None;
            errorType := Some ErrorType.parse;
            errors := Some [ {| error := message; range := emptyRange |} ];
            parse := None; resolve := None; reduce := None;
            transformed := None |})
  ∧ (∀ script, scripts environment !! scriptId = Some script →
       compileScriptRaw data environment scriptId
       = Returns
           (environmentalFailure (circularDependencyMessage scriptId ids))
       ∧ contains (circularDependencyMessage scriptId ids)
           (JS.join ARROW ids))
  ∧ (∀ (environment' : CompilationEnvironment) scriptId' script,
       scripts environment' !! scriptId' = Some script →
       (∀ ids', sourceScriptIds environment' = Some ids' → scriptId' ∉ ids') →
       compileScriptRaw data environment' scriptId'
       = Returns
           (compileScriptContents data
              (withSourceScriptIds environment'
                 (match sourceScriptIds environment' with
                  | None => [scriptId']
                  | Some ids' => ids' ++ [scriptId']
                  end)) script)).
Proof.
  split; [|split].
  - unfold compileScriptRaw. cbv zeta. rewrite Hchain.
    rewrite bool_decide_eq_true_2 by assumption.
    destruct (JS.read (scripts environment) scriptId); now eexists.
  - intros script Hscript. split; [|apply circularDependencyMessage_contains].
    rewrite (compileScriptRaw_own _ _ _ script Hscript), Hchain.
    now rewrite bool_decide_eq_true_2 by assumption.
  - intros environment' scriptId' script Hscript Hfresh.
    rewrite (compileScriptRaw_own _ _ _ script Hscript).
    destruct (sourceScriptIds environment') as [ids'|]; [|reflexivity].
    rewrite bool_decide_eq_false_2; [reflexivity|]. now apply Hfresh.
Qed.

(** *** The locktime-type check *)

(** C2. With a locktime in the compilation data: a script declared
    height-based fails at once on a value of 500,000,000 or more, and a
    script declared timestamp-based fails at once on a value below
    500,000,000, in both cases with a [parse] failure whose single error has
    the empty range and a message that contains the script identifier and the
    value; the result is the same whatever the script table and the
    collaborators are, none of which is consulted. Without a declared
    time-lock type, or without a locktime, the check is skipped and the call
    is the raw compilation followed by the transforms. The value 500,000,000
    itself is rejected for a height-based script and accepted for a
    timestamp-based one. *)
Theorem compileScript_locktime_check (scriptId : string)
    (data : CompilationData) (environment : CompilationEnvironment) :
  (∀ value, locktimeOf data = Some value →
     timeLockTypeOf environment scriptId = Some TimeLockType.height →
     500000000 ≤ value →
     compileScript scriptId data environment
     = Returns
         {| success := false; bytecode := None;
            errorType := Some ErrorType.parse;
            errors := Some [ {| error := heightLocktimeMessage scriptId value;
                                range := emptyRange |} ];
            parse := None; resolve := None; reduce := None;
            transformed := None |}
     ∧ contains (heightLocktimeMessage scriptId value) scriptId
     ∧ contains (heightLocktimeMessage scriptId value)
         (JS.numberToString value))
  ∧ (∀ value, locktimeOf data = Some value →
       timeLockTypeOf environment scriptId = Some TimeLockType.timestamp →
       value < 500000000 →
       compileScript scriptId data environment
       = Returns
           {| success := false; bytecode := None;
              errorType := Some ErrorType.parse;
              errors :=
                Some [ {| error := timestampLocktimeMessage scriptId value;
                          range := emptyRange |} ];
              parse := None; resolve := None; reduce := None;
              transformed := None |}
       ∧ contains (timestampLocktimeMessage scriptId value) scriptId
       ∧ contains (timestampLocktimeMessage scriptId value)
           (JS.numberToString value))
  ∧ (timeLockTypeOf environment scriptId = None ∨ locktimeOf data = None →
       locktimeTypeCheck scriptId data environment = None
       ∧ compileScript scriptId data environment
         = compileAndTransform scriptId data environment)
  ∧ (locktimeOf data = Some 500000000 →
       timeLockTypeOf environment scriptId = Some TimeLockType.height →
       compileScript scriptId data environment
       = Returns
           (environmentalFailure (heightLocktimeMessage scriptId 500000000)))
  ∧ (locktimeOf data = Some 500000000 →
       timeLockTypeOf environment scriptId = Some TimeLockType.timestamp →
       locktimeTypeCheck scriptId data environment = None
       ∧ compileScript scriptId data environment
         = compileAndTransform scriptId data environment).
Proof.
  split; [|split; [|split; [|split]]].
  - intros value Hvalue Htype Hle.
    split; [|split; [apply heightLocktimeMessage_contains
                    |apply heightLocktimeMessage_contains_value]].
    unfold compileScript, locktimeTypeCheck. rewrite Hvalue, Htype.
    unfold lockTimeTypeBecomesTimestamp.
    destruct (Z.leb_spec 500000000 value); [reflexivity | lia].
  - intros value Hvalue Htype Hlt.
    split; [|split; [apply timestampLocktimeMessage_contains
                    |apply timestampLocktimeMessage_contains_value]].
    unfold compileScript, locktimeTypeCheck. rewrite Hvalue, Htype.
    unfold lockTimeTypeBecomesTimestamp.
    destruct (Z.ltb_spec value 500000000); [reflexivity | lia].
  - intros Hskip.
    assert (locktimeTypeCheck scriptId data environment = None) as Hnone.
    { unfold locktimeTypeCheck. destruct Hskip as [-> | ->]; [|reflexivity].
      now destruct (locktimeOf data). }
    split; [exact Hnone|]. unfold compileScript. now rewrite Hnone.
  - intros Hvalue Htype. unfold compileScript, locktimeTypeCheck.
    now rewrite Hvalue, Htype.
  - intros Hvalue Htype. unfold compileScript, locktimeTypeCheck.
    now rewrite Hvalue, Htype.
Qed.

Lemma compileScriptContents_success_bytecode (data : CompilationData)
    (environment : CompilationEnvironment) (script : string) :
  success (compileScriptContents data environment script) = true →
  ∃ b, bytecode (compileScriptContents data environment script) = Some b.
Proof.
  unfold compileScriptContents.
  destruct (parseScript script) as [value|expected index]; [|discriminate].
  cbv zeta.
  destruct (negb _); [discriminate|].
  destruct (reduction_errors _); [discriminate|]. now eexists.
Qed.

Lemma compileScriptContents_transformed (data : CompilationData)
    (environment : CompilationEnvironment) (script : string) :
  transformed (compileScriptContents data environment script) = None.
Proof.
  unfold compileScriptContents.
  destruct (parseScript script); [|reflexivity]. cbv zeta.
  destruct (negb _); [reflexivity|]. now destruct (reduction_errors _).
Qed.

(** *** The shape of the results *)

Lemma compileScriptContents_driverShaped (data : CompilationData)
    (environment : CompilationEnvironment) (script : string) :
  driverShaped (compileScriptContents data environment script).
Proof.
  unfold compileScriptContents.
  destruct (parseScript script) as [value|expected index]; cbv zeta.
  - destruct (getResolutionErrors _) as [|e rest]; simpl.
    + destruct (reduction_errors _) as [reductionErrors|] eqn:Hreduction.
      * split; [intros _; split; [reflexivity|] | discriminate].
        exists reductionErrors. split; [reflexivity|]. intros ->.
        split; [reflexivity|]. now eexists.
      * split; [discriminate | intros _; now eexists].
    + split; [intros _; split; [reflexivity|] | discriminate].
      eexists. split; [reflexivity | discriminate].
  - split; [intros _; split; [reflexivity|] | discriminate].
    eexists. split; [reflexivity | discriminate].
Qed.

Lemma environmentalFailure_driverShaped (message : string) :
  driverShaped (environmentalFailure message).
Proof.
  split; [intros _; split; [reflexivity|] | discriminate].
  eexists. split; [reflexivity | discriminate].
Qed.

Lemma compileScriptRaw_driverShaped (data : CompilationData)
    (environment : CompilationEnvironment) (scriptId : string)
    (result : CompilationResult) :
  compileScriptRaw data environment scriptId = Returns result →
  driverShaped result.
Proof.
  intros H. apply compileScriptRaw_returns_inv in H
    as [[message ->] | (script & _ & _ & ->)].
  - apply environmentalFailure_driverShaped.
  - apply compileScriptContents_driverShaped.
Qed.

Lemma compileScriptRaw_success_bytecode (data : CompilationData)
    (environment : CompilationEnvironment) (scriptId : string)
    (result : CompilationResult) :
  compileScriptRaw data environment scriptId = Returns result →
  success result = true →
  ∃ b, bytecode result = Some b.
Proof.
  intros H. apply compileScriptRaw_driverShaped in H. apply H.
Qed.

Lemma compileScriptRaw_transformed (data : CompilationData)
    (environment : CompilationEnvironment) (scriptId : string)
    (result : CompilationResult) :
  compileScriptRaw data environment scriptId = Returns result →
  transformed result = None.
Proof.
  intros H. apply compileScriptRaw_returns_inv in H
    as [[message ->] | (script & _ & _ & ->)]; [reflexivity|].
  apply compileScriptContents_transformed.
Qed.


(** *** The P2SH transforms *)

Lemma compileAndTransform_locking (scriptId : string) (data : CompilationData)
    (environment : CompilationEnvironment) (rawResult : CompilationResult) :
  compileScriptRaw data environment scriptId = Returns rawResult →
  success rawResult = true →
  lockingScriptTypeOf environment scriptId = Some LockingScriptType.p2sh →
  compileAndTransform scriptId data environment
  = Returns (wrapP2shLocking rawResult environment).
Proof.
  intros Hraw Hsuccess Htype. unfold compileAndTransform.
  now rewrite Hraw, Hsuccess, Htype.
Qed.

Lemma compileAndTransform_unlocking (scriptId : string)
    (data : CompilationData) (environment : CompilationEnvironment)
    (lockingId : string) (rawResult : CompilationResult) :
  compileScriptRaw data environment scriptId = Returns rawResult →
  success rawResult = true →
  lockingScriptTypeOf environment scriptId ≠ Some LockingScriptType.p2sh →
  unlocksOf environment scriptId = Some lockingId →
  lockingScriptTypeOf environment lockingId = Some LockingScriptType.p2sh →
  compileAndTransform scriptId data environment
  = assembleP2shUnlocking rawResult data environment lockingId.
Proof.
  intros Hraw Hsuccess Htype Hunlocks Hpaired. unfold compileAndTransform.
  rewrite Hraw, Hsuccess, Hunlocks, Hpaired. simpl.
  now destruct (lockingScriptTypeOf environment scriptId) as [[]|].
Qed.

(** C9. When the target of [compileScript] is a p2sh-type locking script,
    the call gets past the locktime check and its raw compilation succeeds,
    the synthetic script
    [OP_HASH160 <$(<lockingBytecode> OP_HASH160)> OP_EQUAL], with the single
    [AddressData] variable [lockingBytecode] bound to the raw bytecode and the
    virtual machine of the environment, is compiled; when that compilation
    succeeds the result is the raw result with its bytecode replaced by the
    wrapped bytecode and the marker [p2sh-locking] (the artifacts are those
    of the raw result); when it fails, its failure is the result. *)
Theorem compileScript_p2sh_locking (scriptId : string)
    (data : CompilationData) (environment : CompilationEnvironment)
    (rawResult : CompilationResult)
    (Hcheck : locktimeTypeCheck scriptId data environment = None)
    (Hraw : compileScriptRaw data environment scriptId = Returns rawResult)
    (Hsuccess : success rawResult = true)
    (Htype : lockingScriptTypeOf environment scriptId
             = Some LockingScriptType.p2sh) :
  ∃ rawBytecode,
    bytecode rawResult = Some rawBytecode
    ∧ let wrapped :=
        generateBytecode
          (createCompilerCommonSynchronous
             {| scripts :=
                  {[ "p2shLocking" :=
                       "OP_HASH160 <$(<lockingBytecode> OP_HASH160)> OP_EQUAL" ]};
                sourceScriptIds := None;
                lockingScriptTypes := None;
                unlockingScripts := None;
                unlockingScriptTimeLockTypes := None;
                variables :=
                  Some {[ "lockingBytecode" := VariableType.AddressData ]};
                vm := vm environment;
                createState := None |})
          "p2shLocking"
          {| dataBytecode := Some {[ "lockingBytecode" := rawBytecode ]};
             operationData := None |} in
      (success wrapped = true →
         compileScript scriptId data environment
         = Returns
             {| success := success rawResult;
                bytecode := bytecode wrapped;
                errorType := errorType rawResult;
                errors := errors rawResult;
                parse := parse rawResult;
                resolve := resolve rawResult;
                reduce := reduce rawResult;
                transformed := Some Transformed.p2sh_locking |})
      ∧ (success wrapped = false →
           compileScript scriptId data environment = Returns wrapped).
Proof.
  destruct (compileScriptRaw_success_bytecode _ _ _ _ Hraw Hsuccess)
    as [rawBytecode Hbytecode].
  exists rawBytecode. split; [exact Hbytecode|]. intros wrapped.
  unfold compileScript. rewrite Hcheck.
  rewrite (compileAndTransform_locking _ _ _ rawResult) by assumption.
  unfold wrapP2shLocking, bytecodeOf. cbv zeta.
  rewrite Hbytecode. simpl default.
  change (compileScriptP2shLocking rawBytecode (vm environment)) with wrapped.
  split; intros ->; reflexivity.
Qed.

(** C10 (amended). When the target of [compileScript] is both a p2sh-type
    locking script and an unlocking script paired with a p2sh-type locking
    script: whenever the call gets past the locktime check and its raw
    compilation succeeds, the result is that of the P2SH locking wrap alone;
    in every case a successful result carries the marker [p2sh-locking],
    never [p2sh-unlocking]; and the unlocking assembly takes no part in the
    call: the result is the same with any other compiler factory that agrees
    on the locking wrap, whatever it does for the synthetic unlocking
    script. *)
Theorem compileScript_p2sh_precedence (scriptId : string)
    (data : CompilationData) (environment : CompilationEnvironment)
    (lockingId : string)
    (Hlocking : lockingScriptTypeOf environment scriptId
                = Some LockingScriptType.p2sh)
    (Hunlocks : unlocksOf environment scriptId = Some lockingId)
    (Hpaired : lockingScriptTypeOf environment lockingId
               = Some LockingScriptType.p2sh) :
  (locktimeTypeCheck scriptId data environment = None →
   ∀ rawResult,
     compileScriptRaw data environment scriptId = Returns rawResult →
     success rawResult = true →
     ∃ rawBytecode,
       bytecode rawResult = Some rawBytecode
       ∧ let wrapped :=
           compileScriptP2shLocking rawBytecode (vm environment) in
         compileScript scriptId data environment
         = Returns
             (if success wrapped
              then withTransformed rawResult (bytecode wrapped)
                     Transformed.p2sh_locking
              else wrapped))
  ∧ (∀ result,
       compileScript scriptId data environment = Returns result →
       success result = true →
       transformed result = Some Transformed.p2sh_locking)
  ∧ (∀ otherFactory : CompilationEnvironment → Compiler,
       (∀ lockingBytecode machine,
          compileScriptP2shLockingWith otherFactory lockingBytecode machine
          = compileScriptP2shLocking lockingBytecode machine) →
       compileScriptWith otherFactory scriptId data environment
       = compileScript scriptId data environment).
Proof.
  split; [|split].
  - intros Hcheck rawResult Hraw Hsuccess.
    destruct (compileScriptRaw_success_bytecode _ _ _ _ Hraw Hsuccess)
      as [rawBytecode Hbytecode].
    exists rawBytecode. split; [exact Hbytecode|]. intros wrapped.
    unfold compileScript. rewrite Hcheck.
    rewrite (compileAndTransform_locking _ _ _ rawResult) by assumption.
    unfold wrapP2shLocking, bytecodeOf. cbv zeta.
    rewrite Hbytecode. simpl default. fold wrapped.
    now destruct (success wrapped).
  - intros result. unfold compileScript.
    destruct (locktimeTypeCheck scriptId data environment) as [mismatch|] eqn:Hcheck.
    { apply locktimeTypeCheck_mismatch in Hcheck as (value & _ & [-> | ->]);
        intros [= <-]; discriminate. }
    unfold compileAndTransform.
    destruct (compileScriptRaw data environment scriptId)
      as [rawResult|property]; [|discriminate].
    destruct (success rawResult) eqn:Hraw; simpl;
      [|intros [= <-]; congruence].
    rewrite Hlocking. unfold wrapP2shLocking. cbv zeta.
    destruct (success (compileScriptP2shLocking _ _)) eqn:Hwrap; simpl;
      intros [= <-]; [reflexivity | congruence].
  - intros otherFactory Hagree. unfold compileScript.
    destruct (locktimeTypeCheck scriptId data environment); [reflexivity|].
    unfold compileAndTransform.
    destruct (compileScriptRaw data environment scriptId)
      as [rawResult|property]; [|reflexivity].
    destruct (success rawResult); simpl; [|reflexivity].
    rewrite Hlocking. unfold wrapP2shLocking. cbv zeta.
    now rewrite Hagree.
Qed.

(** The P2SH unlocking assembly, as the driver performs it: the failure of
    the recompilation of the paired locking script is returned as it is; the
    failure of the wrapping compilation is replaced by the (successful)
    result of that recompilation. *)
Lemma compileScript_p2sh_unlocking (scriptId : string)
    (data : CompilationData) (environment : CompilationEnvironment)
    (lockingId : string) (rawResult lockingBytecodeResult : CompilationResult) :
  locktimeTypeCheck scriptId data environment = None →
  compileScriptRaw data environment scriptId = Returns rawResult →
  success rawResult = true →
  lockingScriptTypeOf environment scriptId ≠ Some LockingScriptType.p2sh →
  unlocksOf environment scriptId = Some lockingId →
  lockingScriptTypeOf environment lockingId = Some LockingScriptType.p2sh →
  compileScriptRaw data environment lockingId
  = Returns lockingBytecodeResult →
  let transformedResult :=
    compileScriptP2shUnlocking (bytecodeOf lockingBytecodeResult)
      (bytecodeOf rawResult) in
  (success lockingBytecodeResult = false →
     compileScript scriptId data environment = Returns lockingBytecodeResult)
  ∧ (success lockingBytecodeResult = true →
     success transformedResult = false →
     compileScript scriptId data environment = Returns lockingBytecodeResult)
  ∧ (success lockingBytecodeResult = true →
     success transformedResult = true →
     compileScript scriptId data environment
     = Returns
         (withTransformed rawResult (bytecode transformedResult)
            Transformed.p2sh_unlocking)).
Proof.
  intros Hcheck Hraw Hsuccess Htype Hunlocks Hpaired Hlocking
    transformedResult.
  unfold compileScript. rewrite Hcheck.
  rewrite (compileAndTransform_unlocking _ _ _ lockingId rawResult)
    by assumption.
  unfold assembleP2shUnlocking. rewrite Hlocking. cbv zeta.
  fold transformedResult.
  repeat split.
  - now intros ->.
  - now intros -> ->.
  - now intros -> ->.
Qed.

(** *** More on the stage pipeline *)

(** X4. [compileScriptContents] succeeds exactly when the three stages do:
    the text parses, the resolved script has no resolution error and the
    reduction reports no error; the bytecode of a successful result is the
    one of the reduction. *)
Theorem compileScriptContents_success_iff (data : CompilationData)
    (environment : CompilationEnvironment) (script : string) :
  (success (compileScriptContents data environment script) = true
   ↔ ∃ value,
       parseScript script = ParseSuccess value
       ∧ let resolvedScript :=
           resolveScriptSegment value
             (createIdentifierResolver data environment) in
         getResolutionErrors resolvedScript = []
         ∧ reduction_errors
             (reduceScript resolvedScript (vm environment)
                (createState environment)) = None)
  ∧ (∀ value,
       parseScript script = ParseSuccess value →
       success (compileScriptContents data environment script) = true →
       bytecode (compileScriptContents data environment script)
       = Some (reduction_bytecode
                 (reduceScript
                    (resolveScriptSegment value
                       (createIdentifierResolver data environment))
                    (vm environment) (createState environment)))).
Proof.
  unfold compileScriptContents.
  destruct (parseScript script) as [value|expected index]; cbv zeta.
  - destruct (getResolutionErrors _) as [|e rest] eqn:Hresolution; simpl.
    + destruct (reduction_errors _) eqn:Hreduction; simpl.
      * split; [|intros value' _; discriminate].
        split; [discriminate|]. intros (value' & Hvalue & _ & Hnone).
        injection Hvalue as <-. congruence.
      * split; [|intros value' [= <-] _; reflexivity].
        split; [|reflexivity]. intros _. exists value.
        rewrite Hresolution, Hreduction. now repeat split.
    + split; [|intros value' _; discriminate].
      split; [discriminate|]. intros (value' & Hvalue & Hnil & _).
      injection Hvalue as <-. congruence.
  - split; [|intros value; discriminate].
    split; [discriminate|]. now intros (value & Hvalue & _).
Qed.

(** X5. The artifacts of a result of [compileScriptContents] tell which
    stage failed: kind [parse] comes with no artifact, kind [resolve] with
    the parse and resolve artifacts only, kind [reduce] and a success with
    all three; every failure has a kind and a success has none; and no
    result carries a [transformed] marker. *)
Theorem compileScriptContents_artifacts (data : CompilationData)
    (environment : CompilationEnvironment) (script : string) :
  let result := compileScriptContents data environment script in
  (errorType result = Some ErrorType.parse ↔
     parse result = None ∧ resolve result = None ∧ reduce result = None)
  ∧ (errorType result = Some ErrorType.resolve ↔
       is_Some (parse result) ∧ is_Some (resolve result)
       ∧ reduce result = None)
  ∧ (errorType result = Some ErrorType.reduce ∨ errorType result = None ↔
       is_Some (parse result) ∧ is_Some (resolve result)
       ∧ is_Some (reduce result))
  ∧ (errorType result = None ↔ success result = true)
  ∧ (is_Some (errors result) ↔ success result = false)
  ∧ transformed result = None.
Proof.
  unfold compileScriptContents.
  destruct (parseScript script) as [value|expected index]; cbv zeta.
  - destruct (negb _); [|destruct (reduction_errors _)]; simpl;
      repeat split; intros; destruct_and?; destruct_or?;
      try discriminate; try done;
      try (match goal with H : is_Some None |- _ => destruct H; discriminate end);
      eauto.
  - simpl. repeat split; intros; destruct_and?; destruct_or?;
      try discriminate; try done;
      try (match goal with H : is_Some None |- _ => destruct H; discriminate end);
      eauto.
Qed.

(** X15. When the text does not parse, [compileScriptContents] returns a
    [parse] failure without artifacts, with a single error: its message is
    the sentence of the formatter for the expected inputs of the parser (it
    ends in a period), and its range is the point that the parser reported,
    as both start and end. The compilation data and the environment play no
    part: the result is the same for all of them. *)
Theorem compileScriptContents_parse_failure (data : CompilationData)
    (environment : CompilationEnvironment) (script : string)
    (expected : list string) (index : Index)
    (Hparse : parseScript script = ParseFailure expected index) :
  compileScriptContents data environment script
  = {| success := false; bytecode := None;
       errorType := Some ErrorType.parse;
       errors :=
         Some [ {| error := describeExpectedInput expected;
                   range := {| endColumn := column index;
                               endLineNumber := line index;
                               startColumn := column index;
                               startLineNumber := line index |} |} ];
       parse := None; resolve := None; reduce := None;
       transformed := None |}
  ∧ endsWith (describeExpectedInput expected) "."
  ∧ ∀ (data' : CompilationData) (environment' : CompilationEnvironment),
      compileScriptContents data' environment' script
      = compileScriptContents data environment script.
Proof.
  unfold compileScriptContents. rewrite Hparse.
  split; [reflexivity|]. split; [apply describeExpectedInput_period|].
  reflexivity.
Qed.

(** *** More on the dependency resolver *)

(** X6. For [compileScriptRaw], an absent ancestry chain and an empty one
    are the same: both calls come to the same. *)
Theorem compileScriptRaw_empty_chain (data : CompilationData)
    (environment : CompilationEnvironment) (scriptId : string)
    (Hchain : sourceScriptIds environment = None) :
  compileScriptRaw data (withSourceScriptIds environment []) scriptId
  = compileScriptRaw data environment scriptId.
Proof.
  unfold compileScriptRaw. simpl. rewrite Hchain.
  destruct (JS.read (scripts environment) scriptId); reflexivity.
Qed.

(** X7. Re-entering a script that is being compiled fails: in the
    environment that [compileScriptRaw] hands to the stage pipeline for a
    script (its chain extended by the identifier), and in the environment of
    any deeper descent (further identifiers appended), [compileScriptRaw] on
    that identifier returns the circular-dependency failure, whose message
    lists the chain, whatever the compilation data. *)
Theorem compileScriptRaw_reentry (data : CompilationData)
    (environment : CompilationEnvironment) (scriptId script : string)
    (descendants : list string)
    (Hscript : scripts environment !! scriptId = Some script) :
  let chain :=
    match sourceScriptIds environment with
    | None => [scriptId]
    | Some ids => ids ++ [scriptId]
    end ++ descendants in
  compileScriptRaw data (withSourceScriptIds environment chain) scriptId
  = Returns (environmentalFailure (circularDependencyMessage scriptId chain))
  ∧ contains (circularDependencyMessage scriptId chain) (JS.join ARROW chain).
Proof.
  intros chain. split; [|apply circularDependencyMessage_contains].
  rewrite (compileScriptRaw_own _ _ _ script) by exact Hscript. simpl.
  rewrite bool_decide_eq_true_2; [reflexivity|].
  subst chain. apply elem_of_app. left.
  destruct (sourceScriptIds environment) as [ids|].
  - apply elem_of_app. right. apply list_elem_of_here.
  - apply list_elem_of_here.
Qed.

(** X16. [compileScriptRaw] succeeds only for an identifier that has an
    entry in the script source table and is not on the ancestry chain; its
    result is then the one of the stage pipeline on the text of the script,
    in the environment whose chain is extended by the identifier. *)
Theorem compileScriptRaw_success_inv (data : CompilationData)
    (environment : CompilationEnvironment) (scriptId : string)
    (result : CompilationResult)
    (Hreturns : compileScriptRaw data environment scriptId = Returns result)
    (Hsuccess : success result = true) :
  ∃ script,
    scripts environment !! scriptId = Some script
    ∧ (∀ ids, sourceScriptIds environment = Some ids → scriptId ∉ ids)
    ∧ compileScriptRaw data environment scriptId
      = Returns
          (compileScriptContents data
             (withSourceScriptIds environment
                (match sourceScriptIds environment with
                 | None => [scriptId]
                 | Some ids => ids ++ [scriptId]
                 end)) script).
Proof.
  rewrite Hreturns.
  apply compileScriptRaw_returns_inv in Hreturns
    as [[message ->] | (script & Hscript & Hfresh & ->)]; [discriminate|].
  now exists script.
Qed.

(** *** More on the transforms *)

(** X9. A script that is neither a p2sh-type locking script nor an
    unlocking script of one (a [standard] locking script, for instance) gets
    no transform: past the locktime check, [compileScript] comes to what
    [compileScriptRaw] comes to, unchanged. *)
Theorem compileScript_untransformed (scriptId : string)
    (data : CompilationData) (environment : CompilationEnvironment)
    (Hcheck : locktimeTypeCheck scriptId data environment = None)
    (Hlocking : lockingScriptTypeOf environment scriptId
                ≠ Some LockingScriptType.p2sh)
    (Hunlocking : ∀ lockingId,
        unlocksOf environment scriptId = Some lockingId →
        lockingScriptTypeOf environment lockingId
        ≠ Some LockingScriptType.p2sh) :
  compileScript scriptId data environment
  = compileScriptRaw data environment scriptId.
Proof.
  unfold compileScript. rewrite Hcheck. unfold compileAndTransform.
  destruct (compileScriptRaw data environment scriptId)
    as [rawResult|property]; [|reflexivity].
  destruct (success rawResult); simpl; [|reflexivity].
  destruct (lockingScriptTypeOf environment scriptId) as [[]|]; try done.
  - destruct (unlocksOf environment scriptId) as [lockingId|]; [|reflexivity].
    specialize (Hunlocking lockingId eq_refl).
    now destruct (lockingScriptTypeOf environment lockingId) as [[]|].
  - destruct (unlocksOf environment scriptId) as [lockingId|]; [|reflexivity].
    specialize (Hunlocking lockingId eq_refl).
    now destruct (lockingScriptTypeOf environment lockingId) as [[]|].
Qed.

(** X10. When the raw compilation of the requested script fails,
    [compileScript] returns a failure and never a success; past the locktime
    check, what it returns is that raw failure, unchanged, whatever the
    classification of the script; no synthetic script is compiled: the
    result is the same with any compiler factory. *)
Theorem compileScript_raw_failure (scriptId : string)
    (data : CompilationData) (environment : CompilationEnvironment)
    (rawResult : CompilationResult)
    (Hraw : compileScriptRaw data environment scriptId = Returns rawResult)
    (Hfailure : success rawResult = false) :
  (∃ result,
     compileScript scriptId data environment = Returns result
     ∧ success result = false)
  ∧ (locktimeTypeCheck scriptId data environment = None →
       compileScript scriptId data environment
       = compileScriptRaw data environment scriptId)
  ∧ (∀ otherFactory : CompilationEnvironment → Compiler,
       compileScriptWith otherFactory scriptId data environment
       = compileScript scriptId data environment).
Proof.
  unfold compileScript.
  destruct (locktimeTypeCheck scriptId data environment) as [mismatch|] eqn:Hcheck.
  - apply locktimeTypeCheck_mismatch in Hcheck as (value & _ & [-> | ->]);
      (split; [now eexists|]); (split; [discriminate | reflexivity]).
  - unfold compileAndTransform. rewrite Hraw, Hfailure. simpl.
    split; [now exists rawResult|]. split; reflexivity.
Qed.

(** X11. A successful result of [compileScript] means that the call got
    past the locktime check and that the raw compilation of the requested
    script succeeded. *)
Theorem compileScript_success_inv (scriptId : string)
    (data : CompilationData) (environment : CompilationEnvironment)
    (result : CompilationResult)
    (Hreturns : compileScript scriptId data environment = Returns result)
    (Hsuccess : success result = true) :
  locktimeTypeCheck scriptId data environment = None
  ∧ ∃ rawResult,
      compileScriptRaw data environment scriptId = Returns rawResult
      ∧ success rawResult = true.
Proof.
  revert Hreturns. unfold compileScript.
  destruct (locktimeTypeCheck scriptId data environment) as [mismatch|] eqn:Hcheck.
  - apply locktimeTypeCheck_mismatch in Hcheck as (value & _ & [-> | ->]);
      intros [= <-]; discriminate.
  - unfold compileAndTransform.
    destruct (compileScriptRaw data environment scriptId)
      as [rawResult|property]; [|discriminate].
    destruct (success rawResult) eqn:Hraw; simpl.
    + intros _. split; [reflexivity|]. now exists rawResult.
    + intros [= <-]. congruence.
Qed.

(** X12. The P2SH unlocking assembly: for an unlocking script, not itself a
    p2sh-type locking script, that is paired with a p2sh-type locking script,
    past the locktime check and a successful raw compilation, the paired
    locking script is compiled by [compileScriptRaw] (unwrapped, with the
    data and the environment of the call); when it succeeds, the synthetic
    script [unlockingBytecode <lockingBytecode>], with the two [AddressData]
    variables bound to the two raw bytecodes and no virtual machine, is
    compiled; when that succeeds, the result is the raw result of the
    unlocking script with its bytecode replaced and the marker
    [p2sh-unlocking]. *)
Theorem compileScript_p2sh_unlocking_success (scriptId : string)
    (data : CompilationData) (environment : CompilationEnvironment)
    (lockingId : string) (rawResult lockingBytecodeResult : CompilationResult)
    (Hcheck : locktimeTypeCheck scriptId data environment = None)
    (Hraw : compileScriptRaw data environment scriptId = Returns rawResult)
    (Hsuccess : success rawResult = true)
    (Htype : lockingScriptTypeOf environment scriptId
             ≠ Some LockingScriptType.p2sh)
    (Hunlocks : unlocksOf environment scriptId = Some lockingId)
    (Hpaired : lockingScriptTypeOf environment lockingId
               = Some LockingScriptType.p2sh)
    (Hlocking : compileScriptRaw data environment lockingId
                = Returns lockingBytecodeResult)
    (Hlockingsuccess : success lockingBytecodeResult = true) :
  ∃ unlockingBytecode lockingBytecode,
    bytecode rawResult = Some unlockingBytecode
    ∧ bytecode lockingBytecodeResult = Some lockingBytecode
    ∧ let assembled :=
        generateBytecode
          (createCompilerCommonSynchronous
             {| scripts :=
                  {[ "p2shUnlocking" := "unlockingBytecode <lockingBytecode>" ]};
                sourceScriptIds := None;
                lockingScriptTypes := None;
                unlockingScripts := None;
                unlockingScriptTimeLockTypes := None;
                variables :=
                  Some (<[ "lockingBytecode" := VariableType.AddressData ]>
                          {[ "unlockingBytecode" := VariableType.AddressData ]});
                vm := None;
                createState := None |})
          "p2shUnlocking"
          {| dataBytecode :=
               Some (<[ "lockingBytecode" := lockingBytecode ]>
                       {[ "unlockingBytecode" := unlockingBytecode ]});
             operationData := None |} in
      (success assembled = true →
         compileScript scriptId data environment
         = Returns
             {| success := success rawResult;
                bytecode := bytecode assembled;
                errorType := errorType rawResult;
                errors := errors rawResult;
                parse := parse rawResult;
                resolve := resolve rawResult;
                reduce := reduce rawResult;
                transformed := Some Transformed.p2sh_unlocking |}).
Proof.
  destruct (compileScriptRaw_success_bytecode _ _ _ _ Hraw Hsuccess)
    as [unlockingBytecode Hunlocking].
  destruct (compileScriptRaw_success_bytecode _ _ _ _ Hlocking Hlockingsuccess)
    as [lockingBytecode Hlockingcode].
  exists unlockingBytecode, lockingBytecode.
  split; [exact Hunlocking|]. split; [exact Hlockingcode|].
  intros assembled Hassembled.
  unfold compileScript. rewrite Hcheck.
  rewrite (compileAndTransform_unlocking _ _ _ lockingId rawResult)
    by assumption.
  unfold assembleP2shUnlocking, bytecodeOf. rewrite Hlocking. cbv zeta.
  rewrite Hlockingsuccess, Hunlocking, Hlockingcode. simpl default.
  simpl negb. cbv iota.
  change (compileScriptP2shUnlocking lockingBytecode unlockingBytecode)
    with assembled.
  now rewrite Hassembled.
Qed.

(** X13. In the P2SH unlocking assembly, a failure of the compilation of the
    paired locking script is the result of [compileScript], as it is; the
    synthetic unlocking script is then not compiled (the result is the same
    with any compiler factory). *)
Theorem compileScript_p2sh_unlocking_locking_failure (scriptId : string)
    (data : CompilationData) (environment : CompilationEnvironment)
    (lockingId : string) (rawResult lockingBytecodeResult : CompilationResult)
    (Hcheck : locktimeTypeCheck scriptId data environment = None)
    (Hraw : compileScriptRaw data environment scriptId = Returns rawResult)
    (Hsuccess : success rawResult = true)
    (Htype : lockingScriptTypeOf environment scriptId
             ≠ Some LockingScriptType.p2sh)
    (Hunlocks : unlocksOf environment scriptId = Some lockingId)
    (Hpaired : lockingScriptTypeOf environment lockingId
               = Some LockingScriptType.p2sh)
    (Hlocking : compileScriptRaw data environment lockingId
                = Returns lockingBytecodeResult)
    (Hlockingfailure : success lockingBytecodeResult = false) :
  compileScript scriptId data environment
  = compileScriptRaw data environment lockingId
  ∧ (∀ otherFactory : CompilationEnvironment → Compiler,
       compileScriptWith otherFactory scriptId data environment
       = compileScript scriptId data environment).
Proof.
  assert (∀ factory : CompilationEnvironment → Compiler,
            compileScriptWith factory scriptId data environment
            = compileScriptRaw data environment lockingId) as Hany.
  { intros factory. unfold compileScript. rewrite Hcheck.
    unfold compileAndTransform. rewrite Hraw, Hsuccess, Hunlocks, Hpaired.
    simpl.
    destruct (lockingScriptTypeOf environment scriptId) as [[]|]; try done;
      unfold assembleP2shUnlocking; rewrite Hlocking;
      now rewrite Hlockingfailure. }
  split; [apply Hany|]. intros otherFactory. now rewrite !Hany.
Qed.

(** X14. The marker of a successful result of [compileScript] reflects the
    classification of the requested script: [p2sh-locking] only for a
    p2sh-type locking script, [p2sh-unlocking] only for a script that is not
    one and that unlocks a p2sh-type locking script; and for a p2sh-type
    locking script the marker is always [p2sh-locking]. *)
Theorem compileScript_marker_sound (scriptId : string)
    (data : CompilationData) (environment : CompilationEnvironment)
    (result : CompilationResult)
    (Hreturns : compileScript scriptId data environment = Returns result)
    (Hsuccess : success result = true) :
  (transformed result = Some Transformed.p2sh_locking →
     lockingScriptTypeOf environment scriptId = Some LockingScriptType.p2sh)
  ∧ (transformed result = Some Transformed.p2sh_unlocking →
       lockingScriptTypeOf environment scriptId
       ≠ Some LockingScriptType.p2sh
       ∧ ∃ lockingId,
           unlocksOf environment scriptId = Some lockingId
           ∧ lockingScriptTypeOf environment lockingId
             = Some LockingScriptType.p2sh)
  ∧ (lockingScriptTypeOf environment scriptId = Some LockingScriptType.p2sh →
       transformed result = Some Transformed.p2sh_locking).
Proof.
  revert Hreturns Hsuccess. unfold compileScript.
  destruct (locktimeTypeCheck scriptId data environment) as [mismatch|] eqn:Hcheck.
  { apply locktimeTypeCheck_mismatch in Hcheck as (value & _ & [-> | ->]);
      intros [= <-]; discriminate. }
  unfold compileAndTransform.
  destruct (compileScriptRaw data environment scriptId)
    as [rawResult|property] eqn:Hraw; [|discriminate].
  pose proof (compileScriptRaw_transformed _ _ _ _ Hraw) as Hnone.
  destruct (success rawResult) eqn:Hrawsuccess; simpl;
    [|intros [= <-]; congruence].
  destruct (lockingScriptTypeOf environment scriptId) as [[]|] eqn:Htype.
  - unfold wrapP2shLocking. cbv zeta.
    destruct (success (compileScriptP2shLocking _ _)) eqn:Hwrap; simpl;
      intros [= <-]; [|congruence].
    intros _. repeat split; try done.
  - destruct (unlocksOf environment scriptId) as [lockingId|] eqn:Hunlocks;
      [|intros [= <-] _; rewrite Hnone; repeat split; discriminate].
    destruct (lockingScriptTypeOf environment lockingId) as [[]|] eqn:Hpaired;
      try (intros [= <-] _; rewrite Hnone; repeat split; discriminate).
    unfold assembleP2shUnlocking.
    destruct (compileScriptRaw data environment lockingId)
      as [lockingBytecodeResult|property] eqn:Hlock; [|discriminate].
    pose proof (compileScriptRaw_transformed _ _ _ _ Hlock) as Hnone'.
    destruct (success lockingBytecodeResult) eqn:Hlocksuccess; simpl;
      [|intros [= <-]; congruence].
    destruct (success (compileScriptP2shUnlocking _ _)); simpl;
      intros [= <-] _.
    + repeat split; try discriminate. now exists lockingId.
    + rewrite Hnone'. repeat split; discriminate.
  - destruct (unlocksOf environment scriptId) as [lockingId|] eqn:Hunlocks;
      [|intros [= <-] _; rewrite Hnone; repeat split; discriminate].
    destruct (lockingScriptTypeOf environment lockingId) as [[]|] eqn:Hpaired;
      try (intros [= <-] _; rewrite Hnone; repeat split; discriminate).
    unfold assembleP2shUnlocking.
    destruct (compileScriptRaw data environment lockingId)
      as [lockingBytecodeResult|property] eqn:Hlock; [|discriminate].
    pose proof (compileScriptRaw_transformed _ _ _ _ Hlock) as Hnone'.
    destruct (success lockingBytecodeResult) eqn:Hlocksuccess; simpl;
      [|intros [= <-]; congruence].
    destruct (success (compileScriptP2shUnlocking _ _)); simpl;
      intros [= <-] _.
    + repeat split; try discriminate. now exists lockingId.
    + rewrite Hnone'. repeat split; discriminate.
Qed.


End DriverProperties.

(** ** The definitions at work *)

Example describeExpectedInput_three :
  describeExpectedInput ["a"; "EOF"; "b"]
  = "Encountered unexpected input while parsing script. Expected a, b, or the end of the script.".
Proof. reflexivity. Qed.

Example describeExpectedInput_two :
  describeExpectedInput ["a"; "b"]
  = "Encountered unexpected input while parsing script. Expected a or b.".
Proof. reflexivity. Qed.

Example describeExpectedInput_one :
  describeExpectedInput ["EOF"]
  = "Encountered unexpected input while parsing script. Expected the end of the script.".
Proof. reflexivity. Qed.

Example numberToString_examples :
  JS.numberToString 500000000 = "500000000"
  ∧ JS.numberToString 0 = "0"
  ∧ JS.numberToString (-12) = "-12".
Proof. repeat split. Qed.

Example slice_examples :
  JS.slice 0 (-1) (@nil string) = []
  ∧ JS.slice 0 2 ["a"; "b"; "c"] = ["a"; "b"]
  ∧ JS.get ["a"; "b"; "c"] 2 = Some "c"
  ∧ JS.get ["a"; "b"; "c"] 3 = None
  ∧ JS.get ["a"; "b"; "c"] (-1) = None.
Proof. repeat split. Qed.

Example heightLocktimeMessage_example :
  heightLocktimeMessage "spend" 500000000
  = "The script " +:+ DQ +:+ "spend" +:+ DQ
    +:+ " requires a height-based locktime (less than 500,000,000), but this transaction uses a timestamp-based locktime ("
    +:+ DQ +:+ "500000000" +:+ DQ +:+ ").".
Proof. reflexivity. Qed.


Example example_compile_spend :
  Example.compile [] "spend" Example.noData Example.environment
  = Returns
      {| success := true;
         bytecode :=
           Some (list_byte_of_string "<signature> <public_key>"
                 ++ list_byte_of_string
                      "OP_DUP OP_HASH160 <owner> OP_EQUALVERIFY OP_CHECKSIG");
         errorType := None; errors := None;
         parse := Some "<signature> <public_key>";
         resolve := Some "<signature> <public_key>";
         reduce :=
           Some {| reduction_bytecode :=
                     list_byte_of_string "<signature> <public_key>";
                   reduction_errors := None;
                   reduction_trace := tt |};
         transformed := Some Transformed.p2sh_unlocking |}.
Proof. vm_compute. reflexivity. Qed.

Example example_compile_vault :
  ∃ result,
    Example.compile [] "vault" Example.noData Example.environment
    = Returns result
    ∧ transformed result = Some Transformed.p2sh_locking.
Proof. eexists. split; [vm_compute; reflexivity | reflexivity]. Qed.

Example example_compile_locktime :
  (∃ result,
     Example.compile [] "spend" (Example.dataWithLocktime 499999999)
       Example.environment = Returns result
     ∧ success result = true)
  ∧ (∃ result,
       Example.compile [] "spend" (Example.dataWithLocktime 500000000)
         Example.environment = Returns result
       ∧ success result = false).
Proof.
  split; eexists; (split; [vm_compute; reflexivity | reflexivity]).
Qed.

Example read_examples :
  JS.read (scripts Example.environment) "vault"
  = JS.Own "OP_DUP OP_HASH160 <owner> OP_EQUALVERIFY OP_CHECKSIG"
  ∧ JS.read (scripts Example.environment) "nonexistent" = JS.Undefined
  ∧ JS.read (scripts Example.environment) "toString" = JS.Inherited.
Proof. repeat split. Qed.

(** C1 (defect of the code). The script [spend] unlocks the p2sh-typed
    [vault]; both compile, and the wrapping compilation of the synthetic
    script [p2shUnlocking] fails. [compileScript] then returns the successful
    result of the recompilation of [vault], with the raw bytecode of [vault],
    instead of the failure of the wrapping compilation. *)
Theorem compileScript_p2sh_unlocking_shadows_wrapping_failure :
  ∃ result rawResult lockingBytecodeResult,
    Example.compile ["p2shUnlocking"] "spend" Example.noData
      Example.environment = Returns result
    ∧ Example.compileRaw Example.noData Example.environment "spend"
      = Returns rawResult
    ∧ Example.compileRaw Example.noData Example.environment "vault"
      = Returns lockingBytecodeResult
    ∧ let transformedResult :=
        compileScriptP2shUnlocking (Example.compilerFactory ["p2shUnlocking"])
          (bytecodeOf lockingBytecodeResult) (bytecodeOf rawResult) in
      unlocksOf Example.environment "spend" = Some "vault"
      ∧ lockingScriptTypeOf Example.environment "vault"
        = Some LockingScriptType.p2sh
      ∧ success rawResult = true
      ∧ success lockingBytecodeResult = true
      ∧ success transformedResult = false
      ∧ result = lockingBytecodeResult
      ∧ success result = true
      ∧ bytecode result
        = Some (list_byte_of_string
                  "OP_DUP OP_HASH160 <owner> OP_EQUALVERIFY OP_CHECKSIG")
      ∧ result ≠ transformedResult.
Proof.
  eexists _, _, _.
  split; [vm_compute; reflexivity|].
  split; [vm_compute; reflexivity|].
  split; [vm_compute; reflexivity|].
  repeat split; try (vm_compute; reflexivity).
  intros H. apply (f_equal success) in H. vm_compute in H. discriminate.
Qed.

(** C4 (defect of the code). The script table of the wallet template has no
    entry for [constructor], yet neither [compileScriptRaw] nor
    [compileScript] returns the failure for a missing identifier: the read of
    line 127 finds the member that the table inherits from
    [Object.prototype], the test of line 128 does not fire, and the member
    is handed, as the text of the script, to the stage pipeline. An
    identifier that is not such a name gets the failure. *)
Theorem compileScriptRaw_inherited_member :
  scripts Example.environment !! "constructor" = None
  ∧ Example.compileRaw Example.noData Example.environment "constructor"
    = ParsesInherited "constructor"
  ∧ Example.compile [] "constructor" Example.noData Example.environment
    = ParsesInherited "constructor"
  ∧ Example.compileRaw Example.noData Example.environment "constructor"
    ≠ Returns (environmentalFailure (missingScriptMessage "constructor"))
  ∧ Example.compileRaw Example.noData Example.environment "nonexistent"
    = Returns (environmentalFailure (missingScriptMessage "nonexistent")).
Proof.
  split; [reflexivity|]. split; [reflexivity|]. split; [reflexivity|].
  split; [|reflexivity]. discriminate.
Qed.

Lemma compileScript_locktime_check_witness :
  Example.compile [] "spend" (Example.dataWithLocktime 500000000)
    Example.environment
  = Returns (environmentalFailure (heightLocktimeMessage "spend" 500000000))
  ∧ contains (heightLocktimeMessage "spend" 500000000) "spend"
  ∧ contains (heightLocktimeMessage "spend" 500000000)
      (JS.numberToString 500000000).
Proof.
  apply (proj1 (compileScript_locktime_check Example.locktime
                  Example.parseScript Example.createIdentifierResolver
                  Example.resolveScriptSegment Example.getResolutionErrors
                  Example.reduceScript (Example.compilerFactory [])
                  "spend" (Example.dataWithLocktime 500000000)
                  Example.environment) 500000000).
  - reflexivity.
  - reflexivity.
  - lia.
Defined.

Lemma compileScriptRaw_circular_witness :
  sourceScriptIds Example.cyclicEnvironment = Some ["a"; "b"]
  ∧ "a" ∈ ["a"; "b"]
  ∧ Example.compileRaw Example.noData Example.cyclicEnvironment "a"
    = Returns (environmentalFailure (circularDependencyMessage "a" ["a"; "b"]))
  ∧ contains (circularDependencyMessage "a" ["a"; "b"])
      (JS.join ARROW ["a"; "b"]).
Proof.
  split; [reflexivity|]. split; [apply list_elem_of_here|].
  apply (proj1 (proj2 (compileScriptRaw_circular Example.parseScript
                         Example.createIdentifierResolver
                         Example.resolveScriptSegment
                         Example.getResolutionErrors Example.reduceScript
                         Example.noData Example.cyclicEnvironment "a"
                         ["a"; "b"] eq_refl (list_elem_of_here "a" ["b"])))
           "b").
  reflexivity.
Defined.

(** C3 as stated fails: the identifier [a] is in the ancestry chain
    [a], [b] but has no entry in the script source table; the call reports the
    missing identifier, and its message does not contain the chain. *)
Lemma compileScriptRaw_circular_counterexample :
  sourceScriptIds Example.danglingEnvironment = Some ["a"; "b"]
  ∧ "a" ∈ ["a"; "b"]
  ∧ Example.compileRaw Example.noData Example.danglingEnvironment "a"
    = Returns (environmentalFailure (missingScriptMessage "a"))
  ∧ ¬ contains (missingScriptMessage "a") (JS.join ARROW ["a"; "b"]).
Proof.
  split; [reflexivity|]. split; [apply list_elem_of_here|].
  split; [reflexivity|]. apply not_contains. vm_compute. reflexivity.
Qed.

Lemma compileScriptRaw_unknown_id_witness :
  ∃ message,
    Example.compile [] "nonexistent" Example.noData Example.environment
    = Returns (environmentalFailure message)
    ∧ contains message "nonexistent".
Proof.
  assert ("nonexistent" ∉ JS.objectPrototypeProperties) as Hname
    by (apply (bool_decide_eq_false_1 _); reflexivity).
  apply (proj2 (proj2 (compileScriptRaw_unknown_id Example.locktime
                  Example.parseScript Example.createIdentifierResolver
                  Example.resolveScriptSegment Example.getResolutionErrors
                  Example.reduceScript (Example.compilerFactory [])
                  Example.noData Example.environment "nonexistent" eq_refl
                  Hname))).
Defined.



Lemma compileScriptContents_stages_witness :
  Example.parseScript "$(OP_RETURN)" = ParseSuccess "$(OP_RETURN)"
  ∧ Example.getResolutionErrors "$(OP_RETURN)" = []
  ∧ ∃ reductionErrors reduction,
      Example.compileContents Example.noData Example.environment
        "$(OP_RETURN)"
      = {| success := false; bytecode := None;
           errorType := Some ErrorType.reduce;
           errors := Some reductionErrors;
           parse := Some "$(OP_RETURN)"; resolve := Some "$(OP_RETURN)";
           reduce := Some reduction; transformed := None |}.
Proof.
  split; [reflexivity|]. split; [reflexivity|]. eexists _, _.
  apply (proj1 (proj2 (compileScriptContents_stages Example.parseScript
                         Example.createIdentifierResolver
                         Example.resolveScriptSegment
                         Example.getResolutionErrors Example.reduceScript
                         Example.noData Example.environment "$(OP_RETURN)"
                         "$(OP_RETURN)" eq_refl)) eq_refl).
  reflexivity.
Defined.

Lemma describeExpectedInput_format_witness :
  expectedItems ["a"; "EOF"; "b"] = ["a"; "b"] ++ ["the end of the script"]
  ∧ describeExpectedInput ["a"; "EOF"; "b"]
    = "Encountered unexpected input while parsing script. Expected a, b, or the end of the script.".
Proof.
  split; [reflexivity|].
  apply (proj1 (proj2 (proj2 (describeExpectedInput_format ["a"; "EOF"; "b"])))
           ["a"; "b"] "the end of the script").
  - reflexivity.
  - simpl. lia.
Defined.

Lemma compileScript_p2sh_locking_witness :
  ∃ rawResult rawBytecode result,
    Example.compileRaw Example.noData Example.environment "vault"
    = Returns rawResult
    ∧ bytecode rawResult = Some rawBytecode
    ∧ Example.compile [] "vault" Example.noData Example.environment
      = Returns result
    ∧ bytecode result = Some (Byte.xa9 :: rawBytecode ++ [Byte.x87])
    ∧ transformed result = Some Transformed.p2sh_locking.
Proof.
  eexists.
  destruct (compileScript_p2sh_locking Example.locktime Example.parseScript
              Example.createIdentifierResolver Example.resolveScriptSegment
              Example.getResolutionErrors Example.reduceScript
              (Example.compilerFactory []) "vault" Example.noData
              Example.environment _ eq_refl eq_refl eq_refl eq_refl)
    as (rawBytecode & Hraw & Hsuccess & _).
  exists rawBytecode. eexists.
  split; [reflexivity|]. split; [exact Hraw|].
  split; [exact (Hsuccess eq_refl)|]. simpl.
  split; [|reflexivity].
  vm_compute in Hraw. injection Hraw as <-. reflexivity.
Defined.

Lemma compileScript_p2sh_precedence_witness :
  lockingScriptTypeOf Example.environment "escrow"
  = Some LockingScriptType.p2sh
  ∧ unlocksOf Example.environment "escrow" = Some "vault"
  ∧ lockingScriptTypeOf Example.environment "vault"
    = Some LockingScriptType.p2sh
  ∧ ∃ result,
      Example.compile [] "escrow" Example.noData Example.environment
      = Returns result
      ∧ transformed result = Some Transformed.p2sh_locking.
Proof.
  split; [reflexivity|]. split; [reflexivity|]. split; [reflexivity|].
  eexists. split; [vm_compute; reflexivity|].
  eapply (proj1 (proj2 (compileScript_p2sh_precedence Example.locktime
                          Example.parseScript Example.createIdentifierResolver
                          Example.resolveScriptSegment
                          Example.getResolutionErrors Example.reduceScript
                          (Example.compilerFactory []) "escrow" Example.noData
                          Example.environment "vault"
                          eq_refl eq_refl eq_refl))).
  - vm_compute. reflexivity.
  - reflexivity.
Defined.

(** C10 as stated fails: [recovery] is classified both as a p2sh locking
    script and as an unlocking script of the p2sh-typed [vault], but its text
    does not parse; the call returns the failure of the raw compilation, and
    no P2SH locking wrap is applied. *)
Lemma compileScript_p2sh_precedence_counterexample :
  ∃ result rawResult,
    Example.compile [] "recovery" Example.noData Example.environment
    = Returns result
    ∧ Example.compileRaw Example.noData Example.environment "recovery"
      = Returns rawResult
    ∧ lockingScriptTypeOf Example.environment "recovery"
      = Some LockingScriptType.p2sh
    ∧ unlocksOf Example.environment "recovery" = Some "vault"
    ∧ lockingScriptTypeOf Example.environment "vault"
      = Some LockingScriptType.p2sh
    ∧ success rawResult = false
    ∧ result = rawResult
    ∧ errorType result = Some ErrorType.parse
    ∧ transformed result = None
    ∧ ¬ (∃ rawBytecode,
           bytecode rawResult = Some rawBytecode
           ∧ let wrapped :=
               compileScriptP2shLocking (Example.compilerFactory [])
                 rawBytecode (vm Example.environment) in
             result
             = if success wrapped
               then withTransformed rawResult (bytecode wrapped)
                      Transformed.p2sh_locking
               else wrapped).
Proof.
  eexists _, _.
  split; [vm_compute; reflexivity|].
  split; [vm_compute; reflexivity|].
  repeat split; try (vm_compute; reflexivity).
  intros (rawBytecode & Hbytecode & _). vm_compute in Hbytecode. discriminate.
Qed.

(** ** The further properties on the concrete instance *)

Lemma describeExpectedInput_sentinel_position_witness :
  describeExpectedInput ["EOF"; "a"; "EOF"; "b"]
  = describeExpectedInput ["a"; "b"; "EOF"].
Proof.
  apply describeExpectedInput_sentinel_position.
  - reflexivity.
  - split; intros _.
    + apply list_elem_of_In. simpl. tauto.
    + apply list_elem_of_here.
Defined.

Lemma describeExpectedInput_sentinel_last_witness :
  endsWith (describeExpectedInput ["EOF"; "a"]) "the end of the script.".
Proof.
  apply describeExpectedInput_sentinel_last. apply list_elem_of_here.
Defined.

Lemma describeExpectedInput_mentions_witness :
  contains (describeExpectedInput ["a"; "EOF"; "b"]) "b".
Proof.
  apply describeExpectedInput_mentions.
  - apply list_elem_of_In. simpl. tauto.
  - discriminate.
Defined.

Lemma compileScriptContents_success_iff_witness :
  success
    (Example.compileContents Example.noData Example.environment "OP_1")
  = true.
Proof.
  apply (proj2 (proj1 (compileScriptContents_success_iff Example.parseScript
                         Example.createIdentifierResolver
                         Example.resolveScriptSegment
                         Example.getResolutionErrors
                         Example.reduceScript Example.noData
                         Example.environment "OP_1"))).
  exists "OP_1". repeat split.
Defined.

Lemma compileScriptRaw_empty_chain_witness :
  Example.compileRaw Example.noData
    (withSourceScriptIds Example.environment []) "vault"
  = Example.compileRaw Example.noData Example.environment "vault".
Proof.
  apply (compileScriptRaw_empty_chain Example.parseScript
           Example.createIdentifierResolver Example.resolveScriptSegment
           Example.getResolutionErrors Example.reduceScript).
  reflexivity.
Defined.

Lemma compileScriptRaw_reentry_witness :
  Example.compileRaw Example.noData
    (withSourceScriptIds Example.environment (["a"] ++ ["b"])) "a"
  = Returns
      (environmentalFailure (circularDependencyMessage "a" (["a"] ++ ["b"])))
  ∧ contains (circularDependencyMessage "a" (["a"] ++ ["b"]))
      (JS.join ARROW (["a"] ++ ["b"])).
Proof.
  apply (compileScriptRaw_reentry Example.parseScript
           Example.createIdentifierResolver Example.resolveScriptSegment
           Example.getResolutionErrors Example.reduceScript
           Example.noData Example.environment "a" "b" ["b"]).
  reflexivity.
Defined.

Lemma compileScript_untransformed_witness :
  Example.compile [] "a" Example.noData Example.environment
  = Example.compileRaw Example.noData Example.environment "a".
Proof.
  apply (compileScript_untransformed Example.locktime Example.parseScript
           Example.createIdentifierResolver Example.resolveScriptSegment
           Example.getResolutionErrors Example.reduceScript
           (Example.compilerFactory [])).
  - reflexivity.
  - intros H. vm_compute in H. discriminate.
  - intros lockingId H. vm_compute in H. discriminate.
Defined.

Lemma compileScript_raw_failure_witness :
  ∃ result,
    Example.compile [] "recovery" Example.noData Example.environment
    = Returns result
    ∧ success result = false.
Proof.
  eapply (proj1 (compileScript_raw_failure Example.locktime
                   Example.parseScript Example.createIdentifierResolver
                   Example.resolveScriptSegment Example.getResolutionErrors
                   Example.reduceScript (Example.compilerFactory [])
                   "recovery" Example.noData Example.environment _ _ _)).
  Unshelve.
  - exact (Example.compileContents Example.noData
             (withSourceScriptIds Example.environment ["recovery"]) "<").
  - reflexivity.
  - reflexivity.
Defined.

Lemma compileScript_success_inv_witness :
  locktimeTypeCheck Example.locktime "spend" Example.noData
    Example.environment
  = @None (@CompilationResult string string unit)
  ∧ ∃ rawResult,
      Example.compileRaw Example.noData Example.environment "spend"
      = Returns rawResult
      ∧ success rawResult = true.
Proof.
  eapply (compileScript_success_inv Example.locktime Example.parseScript
            Example.createIdentifierResolver Example.resolveScriptSegment
            Example.getResolutionErrors Example.reduceScript
            (Example.compilerFactory [])).
  - vm_compute. reflexivity.
  - reflexivity.
Defined.

Lemma compileScript_p2sh_unlocking_success_witness :
  ∃ result rawResult,
    Example.compile [] "spend" Example.noData Example.environment
    = Returns result
    ∧ Example.compileRaw Example.noData Example.environment "spend"
      = Returns rawResult
    ∧ transformed result = Some Transformed.p2sh_unlocking
    ∧ parse result = parse rawResult.
Proof.
  destruct (compileScript_p2sh_unlocking_success Example.locktime
              Example.parseScript Example.createIdentifierResolver
              Example.resolveScriptSegment Example.getResolutionErrors
              Example.reduceScript (Example.compilerFactory []) "spend"
              Example.noData Example.environment "vault"
              (Example.compileContents Example.noData
                 (withSourceScriptIds Example.environment ["spend"])
                 "<signature> <public_key>")
              (Example.compileContents Example.noData
                 (withSourceScriptIds Example.environment ["vault"])
                 "OP_DUP OP_HASH160 <owner> OP_EQUALVERIFY OP_CHECKSIG")
              eq_refl eq_refl eq_refl)
    as (unlockingBytecode & lockingBytecode & _ & _ & Hassembled);
    try reflexivity.
  - intros H. vm_compute in H. discriminate.
  - eexists _, _. split; [exact (Hassembled eq_refl)|].
    split; [reflexivity|]. split; reflexivity.
Defined.

Lemma compileScript_p2sh_unlocking_locking_failure_witness :
  Example.compile [] "spend" Example.noData Example.brokenVaultEnvironment
  = Example.compileRaw Example.noData Example.brokenVaultEnvironment "vault".
Proof.
  apply (compileScript_p2sh_unlocking_locking_failure Example.locktime
           Example.parseScript Example.createIdentifierResolver
           Example.resolveScriptSegment Example.getResolutionErrors
           Example.reduceScript (Example.compilerFactory []) "spend"
           Example.noData Example.brokenVaultEnvironment "vault"
           (Example.compileContents Example.noData
              (withSourceScriptIds Example.brokenVaultEnvironment ["spend"])
              "<signature>")
           (Example.compileContents Example.noData
              (withSourceScriptIds Example.brokenVaultEnvironment ["vault"])
              "<"));
    try reflexivity.
  intros H. vm_compute in H. discriminate.
Defined.

Lemma compileScript_marker_sound_witness :
  lockingScriptTypeOf Example.environment "vault"
  = Some LockingScriptType.p2sh.
Proof.
  apply (proj1 (compileScript_marker_sound Example.locktime
                  Example.parseScript Example.createIdentifierResolver
                  Example.resolveScriptSegment Example.getResolutionErrors
                  Example.reduceScript (Example.compilerFactory [])
                  "vault" Example.noData Example.environment
                  (wrapP2shLocking (Example.compilerFactory [])
                     (Example.compileContents Example.noData
                        (withSourceScriptIds Example.environment ["vault"])
                        "OP_DUP OP_HASH160 <owner> OP_EQUALVERIFY OP_CHECKSIG")
                     Example.environment)
                  eq_refl eq_refl)).
  reflexivity.
Defined.

Lemma compileScriptContents_parse_failure_witness :
  Example.compileContents Example.noData Example.environment "<"
  = Example.compileContents (Example.dataWithLocktime 7)
      Example.brokenVaultEnvironment "<".
Proof.
  symmetry.
  apply (compileScriptContents_parse_failure Example.parseScript
           Example.createIdentifierResolver Example.resolveScriptSegment
           Example.getResolutionErrors Example.reduceScript
           Example.noData Example.environment "<"
           ["EOF"; "a closing angle bracket"] {| column := 2; line := 1 |}
           eq_refl).
Defined.

Lemma compileScriptRaw_success_inv_witness :
  ∃ script,
    scripts Example.environment !! "spend" = Some script
    ∧ (∀ ids, sourceScriptIds Example.environment = Some ids → "spend" ∉ ids)
    ∧ Example.compileRaw Example.noData Example.environment "spend"
      = Returns
          (Example.compileContents Example.noData
             (withSourceScriptIds Example.environment ["spend"]) script).
Proof.
  apply (compileScriptRaw_success_inv Example.parseScript
           Example.createIdentifierResolver Example.resolveScriptSegment
           Example.getResolutionErrors Example.reduceScript
           Example.noData Example.environment "spend"
           (Example.compileContents Example.noData
              (withSourceScriptIds Example.environment ["spend"])
              "<signature> <public_key>")).
  - reflexivity.
  - reflexivity.
Defined.
